(** * Xiaomi Mi Home Air Conditioner Companion: the climate entity

    A shallow embedding of [custom_components/climate/xiaomi_miio.py] and the
    properties of its state synchronisation: polling, command dispatch,
    availability bookkeeping, the model latch and the sensor listener.

    The entity is a Python object whose methods mutate its attributes, call
    the device through the python-miio client, write to the module logger and
    may raise.  A method is embedded as a function from the entity's attribute
    record to the new record, the effects it performed, in order, and the way
    it finished (returned a value or raised).  What the device answers to a
    call is not decided by this module: every method that reaches the device
    takes the answer of that call as an argument. *)

From stdpp Require Import base strings gmap list.
From Stdlib Require Import ZArith QArith Ascii.

Local Open Scope string_scope.
Local Open Scope Z_scope.
Local Open Scope list_scope.

(** ** Python values and exceptions *)

(** The values that are stored in the attribute dictionary or come back from
    the device as an acknowledgement. *)
Inductive pyval :=
  | PyNone
  | PyBool (b : bool)
  | PyInt (n : Z)
  | PyStr (s : string)
  | PyList (l : list string).

#[global] Instance pyval_eq_dec : EqDecision pyval.
Proof. solve_decision. Defined.

(** The exception classes that occur in the module.  [DeviceException] is
    python-miio's transport failure; the others are Python's own. *)
Inductive exn :=
  | DeviceException (msg : string)
  | KeyError (key : option string)
  | TypeError
  | ValueError
  | OtherError (cls : string).

Definition is_DeviceException (e : exn) : bool :=
  match e with DeviceException _ => true | _ => false end.

Definition is_ValueError (e : exn) : bool :=
  match e with ValueError => true | _ => false end.

(** How a call finishes. *)
Inductive result (A : Type) :=
  | Returned (a : A)
  | Raised (e : exn).
Arguments Returned {A} a.
Arguments Raised {A} e.

(** ** The collaborators outside the module *)

(** python-miio's enumerations ([miio.airconditioningcompanion]).  The module
    uses a member's [name], the lookup of a member by name ([E[name]], which
    raises [KeyError] for a name that is no member), the call [Power(n)]
    (which raises [ValueError] if no member has the value [n]) and the member
    [Led.Off].  [Power] has a member for 0 and one for 1, and Python's [Enum]
    gives back a member from its own name. *)
Class Miio := {
  Power : Type;
  OperationMode : Type;
  FanSpeed : Type;
  SwingMode : Type;
  Led : Type;
  Power_call : Z → option Power;
  OperationMode_name : OperationMode → string;
  OperationMode_getitem : string → option OperationMode;
  FanSpeed_name : FanSpeed → string;
  FanSpeed_getitem : string → option FanSpeed;
  SwingMode_name : SwingMode → string;
  SwingMode_getitem : string → option SwingMode;
  Led_Off : Led;
  Power_call_bool (b : bool) : is_Some (Power_call (Z.b2z b));
  OperationMode_getitem_name m :
    OperationMode_getitem (OperationMode_name m) = Some m;
  FanSpeed_getitem_name m : FanSpeed_getitem (FanSpeed_name m) = Some m;
  SwingMode_getitem_name m : SwingMode_getitem (SwingMode_name m) = Some m;
}.

(** The host platform: Python's [float(...)] on a string, the temperature
    unit of the host's unit system ([hass.config.units.temperature_unit]) and
    its [hass.config.units.temperature(value, unit)], which gives the value
    back when [unit] is already the system's unit. *)
Class Hass := {
  float : Type;
  float_call : string → result float;
  units_temperature_unit : string;
  units_temperature : float → option string → result float;
  units_temperature_same v :
    units_temperature v (Some units_temperature_unit) = Returned v;
}.

(** ** Constants of the module *)

Definition SUCCESS : pyval := PyList ["ok"].

Definition ATTR_AIR_CONDITION_MODEL : string := "ac_model".
Definition ATTR_SWING_MODE : string := "swing_mode".
Definition ATTR_FAN_SPEED : string := "fan_speed".
Definition ATTR_LOAD_POWER : string := "load_power".
Definition ATTR_LED : string := "led".
(** From [homeassistant.const] and [homeassistant.components.climate]. *)
Definition ATTR_TEMPERATURE : string := "temperature".
Definition ATTR_OPERATION_MODE : string := "operation_mode".
Definition ATTR_UNIT_OF_MEASUREMENT : string := "unit_of_measurement".

Section Entity.
Context `{miio : Miio} `{hass : Hass}.

(** A number as the platform hands it over: the device reports the target
    temperature as an [int], the host's service call passes a [float]. *)
Inductive number :=
  | Int (n : Z)
  | Float (x : float).

(** ** What goes to and comes from the device *)

(** The values of the properties of an [AirConditioningCompanionStatus]
    that the module reads, when every read returns.  The module reads each
    of them without a test for [None], and takes the [name] of the three
    enumeration members. *)
Record Status := {
  is_on : bool;
  air_condition_model : string;
  load_power : Z;
  target_temperature : Z;
  swing_mode : SwingMode;
  fan_speed : FanSpeed;
  mode : OperationMode;
  led : pyval;
}.

(** The status object as the device library hands it over: a property is
    evaluated when it is read, from the data received, and the read can
    raise.  For the three enumerations the read is that of the member whose
    [name] the module takes, so a property that is [None] counts as a read
    that raises ([None] has no [name]).  Reading a property again gives the
    same. *)
Record StatusObject := {
  read_is_on : result bool;
  read_air_condition_model : result string;
  read_load_power : result Z;
  read_target_temperature : result Z;
  read_swing_mode : result SwingMode;
  read_fan_speed : result FanSpeed;
  read_mode : result OperationMode;
  read_led : result pyval;
}.

(** The object every property of which has a value. *)
Definition evaluated (state : Status) : StatusObject := {|
  read_is_on := Returned (is_on state);
  read_air_condition_model := Returned (air_condition_model state);
  read_load_power := Returned (load_power state);
  read_target_temperature := Returned (target_temperature state);
  read_swing_mode := Returned (swing_mode state);
  read_fan_speed := Returned (fan_speed state);
  read_mode := Returned (mode state);
  read_led := Returned (led state);
|}.

(** The methods of [self._device] that the module calls, with their
    arguments. *)
Inductive device_call :=
  | Device_on
  | Device_off
  | Device_status
  | Device_send_configuration
      (model : string) (power : Power) (operation_mode : OperationMode)
      (target_temperature : option number) (fan_speed : FanSpeed)
      (swing_mode : SwingMode) (led : Led)
  | Device_send_command (command : string)
  | Device_send_ir_code (command : string).

(** What a method does besides changing the entity: calls of the device and
    records written to [_LOGGER], by level and format string. *)
Inductive effect :=
  | Call (c : device_call)
  | LogError (fmt : string)
  | LogDebug (fmt : string).

(** A state of the tracked sensor entity: its [state] and [attributes]. *)
Record SensorState := {
  sensor_state : option string;
  sensor_attributes : gmap string string;
}.

(** ** The entity's attributes *)

Record Entity := {
  _available : bool;
  _state : option bool;
  _state_attrs : gmap string pyval;
  _current_temperature : option float;
  _current_swing_mode : option string;
  _current_operation : option string;
  _current_fan_mode : option string;
  _air_condition_model : option string;
  _target_temperature : option number;
}.

(** [__init__], up to the subscription to the sensor. *)
Definition init : Entity := {|
  _available := false;
  _state := None;
  _state_attrs :=
    <[ATTR_LED := PyNone]> (
    <[ATTR_OPERATION_MODE := PyNone]> (
    <[ATTR_FAN_SPEED := PyNone]> (
    <[ATTR_SWING_MODE := PyNone]> (
    <[ATTR_TEMPERATURE := PyNone]> (
    <[ATTR_LOAD_POWER := PyNone]> (
    <[ATTR_AIR_CONDITION_MODEL := PyNone]> ∅))))));
  _current_temperature := None;
  _current_swing_mode := None;
  _current_operation := None;
  _current_fan_mode := None;
  _air_condition_model := None;
  _target_temperature := None;
|}.

(** ** Methods as state transformers with effects and exceptions *)

Definition M (A : Type) : Type := Entity → Entity * list effect * result A.

Definition ret {A} (a : A) : M A := λ s, (s, [], Returned a).

(** Sequencing: an exception ends the method, the assignments and effects
    made before it stay. *)
Definition bind {A B} (m : M A) (k : A → M B) : M B := λ s,
  match m s with
  | (s1, t1, Returned a) =>
      let '(s2, t2, r) := k a s1 in (s2, t1 ++ t2, r)
  | (s1, t1, Raised e) => (s1, t1, Raised e)
  end.

(** [try: body except E as e: handler e], where [catches] decides
    [isinstance(e, E)]. *)
Definition try_except {A} (body : M A) (catches : exn → bool)
    (handler : exn → M A) : M A := λ s,
  match body s with
  | (s1, t1, Raised e) =>
      if catches e
      then let '(s2, t2, r) := handler e s1 in (s2, t1 ++ t2, r)
      else (s1, t1, Raised e)
  | done => done
  end.

Definition get : M Entity := λ s, (s, [], Returned s).
Definition modify (f : Entity → Entity) : M unit := λ s, (f s, [], Returned ()).
Definition emit (e : effect) : M unit := λ s, (s, [e], Returned ()).

(** The value or exception of an expression evaluated inside a method. *)
Definition lift {A} (r : result A) : M A := λ s, (s, [], r).

End Entity.

Declare Scope py_scope.
Delimit Scope py_scope with py.
Notation "x <- m ;; k" := (bind m (λ x, k))
  (at level 100, m at next level, k at level 200, right associativity)
  : py_scope.
Notation "m ;;; k" := (bind m (λ _, k))
  (at level 100, k at level 200, right associativity) : py_scope.

(** ** The class [XiaomiAirConditioningCompanion] *)

Section Methods.
Context `{miio : Miio} `{hass : Hass}.
Local Open Scope py_scope.

(** Assignments to the attributes of [self]. *)
Definition set_available (b : bool) (s : Entity) : Entity :=
  {| _available := b; _state := _state s; _state_attrs := _state_attrs s;
     _current_temperature := _current_temperature s;
     _current_swing_mode := _current_swing_mode s;
     _current_operation := _current_operation s;
     _current_fan_mode := _current_fan_mode s;
     _air_condition_model := _air_condition_model s;
     _target_temperature := _target_temperature s |}.

Definition set_state (v : option bool) (s : Entity) : Entity :=
  {| _available := _available s; _state := v; _state_attrs := _state_attrs s;
     _current_temperature := _current_temperature s;
     _current_swing_mode := _current_swing_mode s;
     _current_operation := _current_operation s;
     _current_fan_mode := _current_fan_mode s;
     _air_condition_model := _air_condition_model s;
     _target_temperature := _target_temperature s |}.

Definition set_state_attrs (d : gmap string pyval) (s : Entity) : Entity :=
  {| _available := _available s; _state := _state s; _state_attrs := d;
     _current_temperature := _current_temperature s;
     _current_swing_mode := _current_swing_mode s;
     _current_operation := _current_operation s;
     _current_fan_mode := _current_fan_mode s;
     _air_condition_model := _air_condition_model s;
     _target_temperature := _target_temperature s |}.

Definition set_current_temperature (v : option float) (s : Entity) : Entity :=
  {| _available := _available s; _state := _state s;
     _state_attrs := _state_attrs s;
     _current_temperature := v;
     _current_swing_mode := _current_swing_mode s;
     _current_operation := _current_operation s;
     _current_fan_mode := _current_fan_mode s;
     _air_condition_model := _air_condition_model s;
     _target_temperature := _target_temperature s |}.

Definition set_current_swing_mode (v : option string) (s : Entity) : Entity :=
  {| _available := _available s; _state := _state s;
     _state_attrs := _state_attrs s;
     _current_temperature := _current_temperature s;
     _current_swing_mode := v;
     _current_operation := _current_operation s;
     _current_fan_mode := _current_fan_mode s;
     _air_condition_model := _air_condition_model s;
     _target_temperature := _target_temperature s |}.

Definition set_current_operation (v : option string) (s : Entity) : Entity :=
  {| _available := _available s; _state := _state s;
     _state_attrs := _state_attrs s;
     _current_temperature := _current_temperature s;
     _current_swing_mode := _current_swing_mode s;
     _current_operation := v;
     _current_fan_mode := _current_fan_mode s;
     _air_condition_model := _air_condition_model s;
     _target_temperature := _target_temperature s |}.

Definition set_current_fan_mode (v : option string) (s : Entity) : Entity :=
  {| _available := _available s; _state := _state s;
     _state_attrs := _state_attrs s;
     _current_temperature := _current_temperature s;
     _current_swing_mode := _current_swing_mode s;
     _current_operation := _current_operation s;
     _current_fan_mode := v;
     _air_condition_model := _air_condition_model s;
     _target_temperature := _target_temperature s |}.

Definition set_air_condition_model (v : option string) (s : Entity) : Entity :=
  {| _available := _available s; _state := _state s;
     _state_attrs := _state_attrs s;
     _current_temperature := _current_temperature s;
     _current_swing_mode := _current_swing_mode s;
     _current_operation := _current_operation s;
     _current_fan_mode := _current_fan_mode s;
     _air_condition_model := v;
     _target_temperature := _target_temperature s |}.

Definition set_target_temperature (v : option number) (s : Entity) : Entity :=
  {| _available := _available s; _state := _state s;
     _state_attrs := _state_attrs s;
     _current_temperature := _current_temperature s;
     _current_swing_mode := _current_swing_mode s;
     _current_operation := _current_operation s;
     _current_fan_mode := _current_fan_mode s;
     _air_condition_model := _air_condition_model s;
     _target_temperature := v |}.

(** [dict.update] with the items of a dictionary display, in order. *)
Definition dict_update (d : gmap string pyval) (items : list (string * pyval))
    : gmap string pyval :=
  foldl (λ acc kv, <[kv.1 := kv.2]> acc) d items.

Definition _LOGGER_error (fmt : string) : M unit := emit (LogError fmt).
Definition _LOGGER_debug (fmt : string) : M unit := emit (LogDebug fmt).

(** [yield from self.hass.async_add_job(...)]: the device method runs and
    its value, or its exception, comes back to the caller. *)
Definition async_add_job {A} (c : device_call) (answer : result A) : M A :=
  emit (Call c) ;;; lift answer.

(** *** The sensor listener *)

Definition _async_update_temp (state : SensorState) : M unit :=
  match sensor_state state with
  | None => ret ()
  | Some value =>
      if String.eqb value "unknown" then ret ()
      else
        let unit := sensor_attributes state !! ATTR_UNIT_OF_MEASUREMENT in
        try_except
          (x <- lift (float_call value) ;;
           t <- lift (units_temperature x unit) ;;
           modify (set_current_temperature (Some t)))
          is_ValueError
          (λ ex, _LOGGER_error "Unable to update from sensor: %s")
  end.

Definition _async_sensor_changed (entity_id : string)
    (old_state new_state : option SensorState) : M unit :=
  match new_state with
  | None => ret ()
  | Some new_state => _async_update_temp new_state
  end.

(** [__init__]: the attribute assignments of [init], then, for a configured
    sensor entity whose state the host already knows, one eager update. *)
Definition __init__ (sensor_entity_id : string)
    (current : option SensorState) : Entity * list effect * result unit :=
  (if String.eqb sensor_entity_id "" then ret ()
   else match current with
        | Some sensor_state => _async_update_temp sensor_state
        | None => ret ()
        end) init.

(** *** Commands *)

Definition _try_command (mask_error : string) (func : device_call)
    (answer : result pyval) : M bool :=
  try_except
    (result <- async_add_job func answer ;;
     _LOGGER_debug "Response received: %s" ;;;
     ret (bool_decide (result = SUCCESS)))
    is_DeviceException
    (λ exc,
       _LOGGER_error mask_error ;;;
       modify (set_available false) ;;;
       ret false).

Definition async_turn_on (answer : result pyval) : M unit :=
  result <- _try_command "Turning the miio device on failed." Device_on
              answer ;;
  if result then modify (set_state (Some true)) else ret ().

Definition async_turn_off (answer : result pyval) : M unit :=
  result <- _try_command "Turning the miio device off failed." Device_off
              answer ;;
  if result then modify (set_state (Some false)) else ret ().

(** *** Polling *)

Definition async_update (answer : result StatusObject) : M unit :=
  try_except
    (state <- async_add_job Device_status answer ;;
     _LOGGER_debug "Got new state: %s" ;;;
     modify (set_available true) ;;;
     is_on <- lift (read_is_on state) ;;
     modify (set_state (Some is_on)) ;;;
     air_condition_model <- lift (read_air_condition_model state) ;;
     load_power <- lift (read_load_power state) ;;
     target_temperature <- lift (read_target_temperature state) ;;
     swing_mode <- lift (read_swing_mode state) ;;
     fan_speed <- lift (read_fan_speed state) ;;
     mode <- lift (read_mode state) ;;
     led <- lift (read_led state) ;;
     modify (λ s, set_state_attrs (dict_update (_state_attrs s) [
       (ATTR_AIR_CONDITION_MODEL, PyStr air_condition_model);
       (ATTR_LOAD_POWER, PyInt load_power);
       (ATTR_TEMPERATURE, PyInt target_temperature);
       (ATTR_SWING_MODE, PyStr (SwingMode_name swing_mode));
       (ATTR_FAN_SPEED, PyStr (FanSpeed_name fan_speed));
       (ATTR_OPERATION_MODE, PyStr (OperationMode_name mode));
       (ATTR_LED, led)]) s) ;;;
     mode <- lift (read_mode state) ;;
     modify (set_current_operation (Some (OperationMode_name mode))) ;;;
     target_temperature <- lift (read_target_temperature state) ;;
     modify (set_target_temperature (Some (Int target_temperature))) ;;;
     fan_speed <- lift (read_fan_speed state) ;;
     modify (set_current_fan_mode (Some (FanSpeed_name fan_speed))) ;;;
     swing_mode <- lift (read_swing_mode state) ;;
     modify (set_current_swing_mode (Some (SwingMode_name swing_mode))) ;;;
     self <- get ;;
     match _air_condition_model self with
     | None =>
         air_condition_model <- lift (read_air_condition_model state) ;;
         modify (set_air_condition_model (Some air_condition_model))
     | Some _ => ret ()
     end)
    is_DeviceException
    (λ ex,
       modify (set_available false) ;;;
       _LOGGER_error "Got exception while fetching the state: %s").

(** *** The configuration push *)

(** [int(self._state)]. *)
Definition int_call (v : option bool) : result Z :=
  match v with
  | Some b => Returned (Z.b2z b)
  | None => Raised TypeError
  end.

(** [Power(n)]. *)
Definition Power_of (n : Z) : result Power :=
  match Power_call n with
  | Some p => Returned p
  | None => Raised ValueError
  end.

(** [E[key]] for an enumeration [E] with the member table [table]. *)
Definition getitem {E} (table : string → option E) (key : option string)
    : result E :=
  match key with
  | Some name =>
      match table name with
      | Some m => Returned m
      | None => Raised (KeyError (Some name))
      end
  | None => Raised (KeyError None)
  end.

Definition _send_configuration (answer : result pyval) : M unit :=
  self <- get ;;
  match _air_condition_model self with
  | Some model =>
      n <- lift (int_call (_state self)) ;;
      power <- lift (Power_of n) ;;
      operation_mode <- lift (getitem OperationMode_getitem
                                (_current_operation self)) ;;
      fan_speed <- lift (getitem FanSpeed_getitem (_current_fan_mode self)) ;;
      swing_mode <- lift (getitem SwingMode_getitem
                            (_current_swing_mode self)) ;;
      _try_command "Sending new air conditioner configuration failed."
        (Device_send_configuration model power operation_mode
           (_target_temperature self) fan_speed swing_mode Led_Off)
        answer ;;;
      ret ()
  | None =>
      _LOGGER_error
        "Model number of the air condition unknown. Configuration cannot be sent."
  end.

(** [kwargs.get(ATTR_TEMPERATURE)] and [kwargs.get(ATTR_OPERATION_MODE)] are
    the two optional arguments. *)
Definition async_set_temperature (temperature : option number)
    (operation_mode : option string) (answer : result pyval) : M unit :=
  match temperature with
  | Some t => modify (set_target_temperature (Some t))
  | None => ret ()
  end ;;;
  match operation_mode with
  | Some m => modify (set_current_operation (Some m))
  | None => ret ()
  end ;;;
  _send_configuration answer.

Definition async_set_swing_mode (swing_mode : string)
    (answer : result pyval) : M unit :=
  modify (set_current_swing_mode (Some swing_mode)) ;;;
  _send_configuration answer.

Definition async_set_fan_mode (fan : string) (answer : result pyval)
    : M unit :=
  modify (set_current_fan_mode (Some fan)) ;;;
  _send_configuration answer.

Definition async_set_operation_mode (operation_mode : string)
    (answer : result pyval) : M unit :=
  modify (set_current_operation (Some operation_mode)) ;;;
  _send_configuration answer.

(** *** Raw commands *)

(** [command[0:2]] is [String.substring 0 2 command]: a shorter string gives what
    there is.  The method is a generator; this is what it does when it is
    run to its end. *)
Definition _send_custom_command (command : string) (answer : result pyval)
    : M unit :=
  if String.eqb (String.substring 0 2 command) "01" then
    _try_command "Sending new air conditioner configuration failed."
      (Device_send_command command) answer ;;;
    ret ()
  else
    _try_command "Sending new air conditioner configuration failed."
      (Device_send_ir_code command) answer ;;;
    ret ().

End Methods.

(** ** Histories of the entity *)

Section Histories.
Context `{miio : Miio} `{hass : Hass}.

Definition state_of {A} (o : Entity * list effect * result A) : Entity := o.1.1.
Definition trace_of {A} (o : Entity * list effect * result A) : list effect :=
  o.1.2.
Definition result_of {A} (o : Entity * list effect * result A) : result A :=
  o.2.

(** What the host asks of the entity, with the device's answer to the call
    the method makes, if it makes one.  [Poll] is a poll whose status call
    raised, or returned a status every property of which has a value;
    [PollReading] is a poll whose status call returned any status object, one
    whose property reads raise included. *)
Inductive event :=
  | Poll (answer : result Status)
  | TurnOn (answer : result pyval)
  | TurnOff (answer : result pyval)
  | SetTemperature (temperature : option number)
      (operation_mode : option string) (answer : result pyval)
  | SetSwingMode (swing_mode : string) (answer : result pyval)
  | SetFanMode (fan : string) (answer : result pyval)
  | SetOperationMode (operation_mode : string) (answer : result pyval)
  | SensorChanged (entity_id : string) (old_state new_state : option SensorState)
  | SendCustomCommand (command : string) (answer : result pyval)
  | PollReading (state : StatusObject).

Definition handle (ev : event) : M unit :=
  match ev with
  | Poll (Returned state) => async_update (Returned (evaluated state))
  | Poll (Raised e) => async_update (Raised e)
  | TurnOn answer => async_turn_on answer
  | TurnOff answer => async_turn_off answer
  | SetTemperature temperature operation_mode answer =>
      async_set_temperature temperature operation_mode answer
  | SetSwingMode swing_mode answer => async_set_swing_mode swing_mode answer
  | SetFanMode fan answer => async_set_fan_mode fan answer
  | SetOperationMode operation_mode answer =>
      async_set_operation_mode operation_mode answer
  | SensorChanged entity_id old_state new_state =>
      _async_sensor_changed entity_id old_state new_state
  | SendCustomCommand command answer => _send_custom_command command answer
  | PollReading state => async_update (Returned state)
  end.

(** The entity lives on when a method raises: the host reports the exception
    and keeps the object, with the assignments made so far. *)
Definition exec (ev : event) (s : Entity) : Entity := state_of (handle ev s).

Definition run (evs : list event) (s : Entity) : Entity :=
  foldl (λ s ev, exec ev s) s evs.

Fixpoint trace (evs : list event) (s : Entity) : list effect :=
  match evs with
  | [] => []
  | ev :: evs => trace_of (handle ev s) ++ trace evs (exec ev s)
  end.

(** The states the entity can be in: constructed, then any history. *)
Inductive reachable : Entity → Prop :=
  | reachable_init sensor_entity_id current s t :
      __init__ sensor_entity_id current = (s, t, Returned ()) →
      reachable s
  | reachable_step ev s :
      reachable s → reachable (exec ev s).

(** The four setters of the control surface. *)
Definition is_setter (ev : event) : bool :=
  match ev with
  | SetTemperature _ _ _ | SetSwingMode _ _ | SetFanMode _ _
  | SetOperationMode _ _ => true
  | _ => false
  end.

Definition is_push (e : effect) : bool :=
  match e with
  | Call (Device_send_configuration _ _ _ _ _ _ _) => true
  | _ => false
  end.

Definition is_call (e : effect) : bool :=
  match e with Call _ => true | _ => false end.

Definition is_error (e : effect) : bool :=
  match e with LogError _ => true | _ => false end.

Definition count (p : effect → bool) (t : list effect) : nat :=
  length (filter (λ e, p e = true) t).

(** The device calls of a trace, in order. *)
Definition calls (t : list effect) : list device_call :=
  omap (λ e, match e with Call c => Some c | _ => None end) t.

(** Every push in the effect carries [Led.Off]. *)
Definition pushes_led_off (e : effect) : Prop :=
  match e with
  | Call (Device_send_configuration _ _ _ _ _ _ led) => led = Led_Off
  | _ => True
  end.

(** The two messages of [_send_configuration]. *)
Definition MASK_CONFIGURATION : string :=
  "Sending new air conditioner configuration failed.".
Definition MODEL_UNKNOWN : string :=
  "Model number of the air condition unknown. Configuration cannot be sent.".

(** The attributes after the [try] body of [async_update] ran to its end. *)
Definition polled (state : Status) (s : Entity) : Entity := {|
  _available := true;
  _state := Some (is_on state);
  _state_attrs := dict_update (_state_attrs s) [
    (ATTR_AIR_CONDITION_MODEL, PyStr (air_condition_model state));
    (ATTR_LOAD_POWER, PyInt (load_power state));
    (ATTR_TEMPERATURE, PyInt (target_temperature state));
    (ATTR_SWING_MODE, PyStr (SwingMode_name (swing_mode state)));
    (ATTR_FAN_SPEED, PyStr (FanSpeed_name (fan_speed state)));
    (ATTR_OPERATION_MODE, PyStr (OperationMode_name (mode state)));
    (ATTR_LED, led state)];
  _current_temperature := _current_temperature s;
  _current_swing_mode := Some (SwingMode_name (swing_mode state));
  _current_operation := Some (OperationMode_name (mode state));
  _current_fan_mode := Some (FanSpeed_name (fan_speed state));
  _air_condition_model :=
    match _air_condition_model s with
    | None => Some (air_condition_model state)
    | Some model => Some model
    end;
  _target_temperature := Some (Int (target_temperature state));
|}.

(** The attributes after the two assignments of [async_set_temperature]. *)
Definition with_temperature (temperature : option number)
    (operation_mode : option string) (s : Entity) : Entity :=
  let s1 := match temperature with
            | Some t => set_target_temperature (Some t) s
            | None => s
            end in
  match operation_mode with
  | Some m => set_current_operation (Some m) s1
  | None => s1
  end.

(** A poll whose status call returned. *)
Definition is_successful_poll (ev : event) : bool :=
  match ev with
  | Poll (Returned _) | PollReading _ => true
  | _ => false
  end.

(** All the properties of a status object, read in the order in which
    [async_update] first reads them: the values, or the exception of the
    first read that raises. *)
Definition read_all (state : StatusObject) : result Status :=
  match read_is_on state with
  | Raised e => Raised e
  | Returned is_on =>
  match read_air_condition_model state with
  | Raised e => Raised e
  | Returned air_condition_model =>
  match read_load_power state with
  | Raised e => Raised e
  | Returned load_power =>
  match read_target_temperature state with
  | Raised e => Raised e
  | Returned target_temperature =>
  match read_swing_mode state with
  | Raised e => Raised e
  | Returned swing_mode =>
  match read_fan_speed state with
  | Raised e => Raised e
  | Returned fan_speed =>
  match read_mode state with
  | Raised e => Raised e
  | Returned mode =>
  match read_led state with
  | Raised e => Raised e
  | Returned led =>
      Returned {| is_on := is_on;
                  air_condition_model := air_condition_model;
                  load_power := load_power;
                  target_temperature := target_temperature;
                  swing_mode := swing_mode; fan_speed := fan_speed;
                  mode := mode; led := led |}
  end end end end end end end end.

(** The entity as a poll leaves it when a property read raises: available,
    and with the on/off flag of the status if that read returned. *)
Definition half_polled (state : StatusObject) (s : Entity) : Entity :=
  match read_is_on state with
  | Returned is_on => set_state (Some is_on) (set_available true s)
  | Raised _ => set_available true s
  end.


(** The five attributes the configuration push reads are assigned. *)
Definition bundle_set (s : Entity) : Prop :=
  is_Some (_state s) ∧ is_Some (_current_operation s) ∧
  is_Some (_current_fan_mode s) ∧ is_Some (_current_swing_mode s) ∧
  is_Some (_target_temperature s).

(** A poll that fails with the transport exception. *)
Definition failed_poll (msg : string) : event :=
  Poll (Raised (DeviceException msg)).

(** The argument list of the configuration push, evaluated left to right as
    [_send_configuration] does before it calls the wrapper. *)
Definition bundle (model : string) (s : Entity) : result device_call :=
  match int_call (_state s) with
  | Raised e => Raised e
  | Returned n =>
  match Power_of n with
  | Raised e => Raised e
  | Returned power =>
  match getitem OperationMode_getitem (_current_operation s) with
  | Raised e => Raised e
  | Returned operation_mode =>
  match getitem FanSpeed_getitem (_current_fan_mode s) with
  | Raised e => Raised e
  | Returned fan_speed =>
  match getitem SwingMode_getitem (_current_swing_mode s) with
  | Raised e => Raised e
  | Returned swing_mode =>
      Returned (Device_send_configuration model power operation_mode
                  (_target_temperature s) fan_speed swing_mode Led_Off)
  end end end end end.

(** The arguments of the configuration push can be evaluated: the on/off flag
    is a [bool] that [Power] accepts and the three names are members. *)
Definition bundle_resolves (s : Entity) : Prop :=
  is_Some (b ← _state s; Power_call (Z.b2z b)) ∧
  is_Some (_current_operation s ≫= OperationMode_getitem) ∧
  is_Some (_current_fan_mode s ≫= FanSpeed_getitem) ∧
  is_Some (_current_swing_mode s ≫= SwingMode_getitem).

End Histories.

(** ** The properties the host reads *)

(** The read-only properties of the class, under the names the class gives
    them. *)
Module Climate.
Section Accessors.
Context `{miio : Miio} `{hass : Hass}.

Definition available (s : Entity) : bool := _available s.

Definition device_state_attributes (s : Entity) : gmap string pyval :=
  _state_attrs s.

Definition current_temperature (s : Entity) : option float :=
  _current_temperature s.

Definition target_temperature (s : Entity) : option number :=
  _target_temperature s.

Definition current_operation (s : Entity) : option string :=
  _current_operation s.

Definition current_fan_mode (s : Entity) : option string :=
  _current_fan_mode s.

Definition current_swing_mode (s : Entity) : option string :=
  _current_swing_mode s.

(** Annotated [bool] in the class; it is [None] until something assigns
    [_state]. *)
Definition is_on (s : Entity) : option bool := _state s.

(** [[mode.name for mode in OperationMode]] and its two siblings: the names
    of the members, in the order the enumeration iterates them. *)
Definition operation_list (members : list OperationMode) : list string :=
  OperationMode_name <$> members.

Definition fan_list (members : list FanSpeed) : list string :=
  FanSpeed_name <$> members.

Definition swing_list (members : list SwingMode) : list string :=
  SwingMode_name <$> members.

End Accessors.
End Climate.

(** ** Setting the platform up *)

Section Setup.
Context `{miio : Miio} `{hass : Hass}.

(** The platform configuration after [PLATFORM_SCHEMA] accepted it, by the
    keys [async_setup_platform] reads. *)
Record Config := {
  CONF_HOST : string;
  CONF_NAME : string;
  CONF_TOKEN : string;
  CONF_MIN_TEMP : Z;
  CONF_MAX_TEMP : Z;
  CONF_SENSOR : string;
}.

(** What [device.info()] returns, by the attributes the module reads. *)
Record DeviceInfo := {
  info_model : string;
  mac_address : string;
  firmware_version : string;
  hardware_version : string;
}.

(** The object [XiaomiAirConditioningCompanion(...)] builds: the arguments
    [__init__] stores and the attributes it initialises. *)
Record Companion := {
  _name : string;
  _unique_id : string;
  _sensor_entity_id : string;
  _min_temp : Z;
  _max_temp : Z;
  entity : Entity;
}.

(** What the set-up does: records written to [_LOGGER] with their
    arguments, the connection to the device ([AirConditioningCompanion(host,
    token)] and [device.info()]), the effects of the entity's constructor,
    and the call of [async_add_devices]. *)
Inductive setup_effect :=
  | SetupInfo (fmt : string) (args : list string)
  | SetupError (fmt : string)
  | Connect (host token : string)
  | Construct (e : effect)
  | AddDevices (devices : list Companion) (update_before_add : bool).

Definition PlatformNotReady : exn := OtherError "PlatformNotReady".

(** ["{}-{}".format(model, mac_address)]. *)
Definition format_unique_id (model mac : string) : string :=
  model +:+ "-" +:+ mac.

(** [async_setup_platform]; [answer] is how the connection to the device
    ends, [current] the state the host has for the sensor entity. *)
Definition async_setup_platform (config : Config) (answer : result DeviceInfo)
    (current : option SensorState) : list setup_effect * result unit :=
  let host := CONF_HOST config in
  let name := CONF_NAME config in
  let token := CONF_TOKEN config in
  let min_temp := CONF_MIN_TEMP config in
  let max_temp := CONF_MAX_TEMP config in
  let sensor_entity_id := CONF_SENSOR config in
  let greeting :=
    [SetupInfo "Initializing with host %s (token %s...)"
       [host; String.substring 0 5 token];
     Connect host token] in
  match answer with
  | Raised e =>
      if is_DeviceException e
      then (greeting ++
              [SetupError "Device unavailable or token incorrect: %s"],
            Raised PlatformNotReady)
      else (greeting, Raised e)
  | Returned device_info =>
      let model := info_model device_info in
      let unique_id := format_unique_id model (mac_address device_info) in
      let detected :=
        [SetupInfo "%s %s %s detected"
           [model; firmware_version device_info;
            hardware_version device_info]] in
      match __init__ sensor_entity_id current with
      | (s, t, Returned _) =>
          (greeting ++ detected ++ (Construct <$> t) ++
             [AddDevices
                [{| _name := name; _unique_id := unique_id;
                    _sensor_entity_id := sensor_entity_id;
                    _min_temp := min_temp; _max_temp := max_temp;
                    entity := s |}]
                true],
           Returned ())
      | (_, t, Raised e) =>
          (greeting ++ detected ++ (Construct <$> t), Raised e)
      end
  end.


(** A sensor notification, as opposed to a poll or a command. *)
Definition is_sensor (ev : event) : bool :=
  match ev with SensorChanged _ _ _ => true | _ => false end.

(** The seven keys of the attribute dictionary. *)
Definition ATTRIBUTE_KEYS : gset string :=
  {[ATTR_AIR_CONDITION_MODEL; ATTR_LOAD_POWER; ATTR_TEMPERATURE;
    ATTR_SWING_MODE; ATTR_FAN_SPEED; ATTR_OPERATION_MODE; ATTR_LED]}.


End Setup.

(** ** Concrete collaborators

    The theorems below hold for every [Miio] and [Hass].  The instances here
    are used to run the methods on concrete histories. *)

(** The enumerations of [miio.airconditioningcompanion], by their members. *)
Module PythonMiio.

Inductive Power_ := Power_On | Power_Off.
Inductive OperationMode_ :=
  | Mode_Heat | Mode_Cool | Mode_Auto | Mode_Dehumidify | Mode_Ventilate.
Inductive FanSpeed_ := Fan_Low | Fan_Medium | Fan_High | Fan_Auto.
Inductive SwingMode_ := Swing_On | Swing_Off.
Inductive Led_ := Led_On_ | Led_Off_.

Definition power_call (n : Z) : option Power_ :=
  if n =? 1 then Some Power_On
  else if n =? 0 then Some Power_Off
  else None.

Definition mode_name (m : OperationMode_) : string :=
  match m with
  | Mode_Heat => "Heat" | Mode_Cool => "Cool" | Mode_Auto => "Auto"
  | Mode_Dehumidify => "Dehumidify" | Mode_Ventilate => "Ventilate"
  end.

Definition fan_name (m : FanSpeed_) : string :=
  match m with
  | Fan_Low => "Low" | Fan_Medium => "Medium" | Fan_High => "High"
  | Fan_Auto => "Auto"
  end.

Definition swing_name (m : SwingMode_) : string :=
  match m with Swing_On => "On" | Swing_Off => "Off" end.

(** [E[name]]: the first member with that name. *)
Definition by_name {E} (name_of : E → string) (members : list E)
    (name : string) : option E :=
  head (filter (λ m, name_of m = name) members).

Definition mode_getitem : string → option OperationMode_ :=
  by_name mode_name
    [Mode_Heat; Mode_Cool; Mode_Auto; Mode_Dehumidify; Mode_Ventilate].
Definition fan_getitem : string → option FanSpeed_ :=
  by_name fan_name [Fan_Low; Fan_Medium; Fan_High; Fan_Auto].
Definition swing_getitem : string → option SwingMode_ :=
  by_name swing_name [Swing_On; Swing_Off].

Lemma power_call_bool (b : bool) : is_Some (power_call (Z.b2z b)).
Proof. by destruct b. Qed.
Lemma mode_getitem_name m : mode_getitem (mode_name m) = Some m.
Proof. by destruct m. Qed.
Lemma fan_getitem_name m : fan_getitem (fan_name m) = Some m.
Proof. by destruct m. Qed.
Lemma swing_getitem_name m : swing_getitem (swing_name m) = Some m.
Proof. by destruct m. Qed.

#[export] Instance python_miio : Miio := {|
  Power := Power_;
  OperationMode := OperationMode_;
  FanSpeed := FanSpeed_;
  SwingMode := SwingMode_;
  Led := Led_;
  Power_call := power_call;
  OperationMode_name := mode_name;
  OperationMode_getitem := mode_getitem;
  FanSpeed_name := fan_name;
  FanSpeed_getitem := fan_getitem;
  SwingMode_name := swing_name;
  SwingMode_getitem := swing_getitem;
  Led_Off := Led_Off_;
  Power_call_bool := power_call_bool;
  OperationMode_getitem_name := mode_getitem_name;
  FanSpeed_getitem_name := fan_getitem_name;
  SwingMode_getitem_name := swing_getitem_name;
|}.

End PythonMiio.

(** A host on the metric system whose [float] reads plain decimal literals
  (an optional minus sign, digits, an optional fraction) as rationals and
  whose conversion computes with them exactly.  Python's [float] reads more
  forms and the host computes in binary doubles; the two agree on the
  readings used with this host below, which are representable and convert
  without rounding (21.5; 50 and 32 degrees Fahrenheit, which are 10 and 0
  degrees Celsius). *)
Module MetricHost.

Definition TEMP_CELSIUS : string := "°C".
Definition TEMP_FAHRENHEIT : string := "°F".

Definition digit (c : ascii) : option Z :=
  let n := Z.of_nat (nat_of_ascii c) in
  if (48 <=? n) && (n <=? 57) then Some (n - 48) else None.

(** The value of a string of digits and how many there are. *)
Fixpoint digits (s : string) (acc : Z) (len : nat) : option (Z * nat) :=
  match s with
  | EmptyString => Some (acc, len)
  | String c s => d ← digit c; digits s (10 * acc + d) (S len)
  end.

Fixpoint split_dot (s : string) : string * option string :=
  match s with
  | EmptyString => (EmptyString, None)
  | String c rest =>
      if Ascii.eqb c "."%char then (EmptyString, Some rest)
      else let '(a, b) := split_dot rest in (String c a, b)
  end.

Definition unsigned (s : string) : option Q :=
  let '(whole, fraction) := split_dot s in
  '(n, ln) ← digits whole 0 0;
  '(m, lm) ← digits (default EmptyString fraction) 0 0;
  if (ln + lm =? 0)%nat then None
  else Some (Qred (Qmake (n * 10 ^ Z.of_nat lm + m)
                         (Z.to_pos (10 ^ Z.of_nat lm)))).

Definition decimal (s : string) : option Q :=
  match s with
  | String c rest =>
      if Ascii.eqb c "-"%char then Qopp <$> unsigned rest else unsigned s
  | EmptyString => None
  end.

Definition float_of_string (s : string) : result Q :=
  match decimal s with
  | Some x => Returned x
  | None => Raised ValueError
  end.

(** [homeassistant.util.temperature.convert] to Celsius. *)
Definition to_celsius (x : Q) (unit : option string) : result Q :=
  match unit with
  | Some u =>
      if String.eqb u TEMP_CELSIUS then Returned x
      else if String.eqb u TEMP_FAHRENHEIT
           then Returned (Qred ((x - 32) / (18 # 10)))
           else Raised ValueError
  | None => Raised ValueError
  end.

Lemma to_celsius_same x : to_celsius x (Some TEMP_CELSIUS) = Returned x.
Proof. reflexivity. Qed.

Example float_21_5 : float_of_string "21.5" = Returned (43 # 2)%Q.
Proof. reflexivity. Qed.

Example float_abc : float_of_string "abc" = Raised ValueError.
Proof. reflexivity. Qed.

#[export] Instance metric_host : Hass := {|
  float := Q;
  float_call := float_of_string;
  units_temperature_unit := TEMP_CELSIUS;
  units_temperature := to_celsius;
  units_temperature_same := to_celsius_same;
|}.

End MetricHost.

(** ** A concrete household

    One device and one sensor, with the collaborators above. *)
Module Scenario.
Import PythonMiio MetricHost.

Definition OK : result pyval := Returned SUCCESS.
Definition REFUSED : result pyval := Returned (PyList ["error"]).
Definition TIMEOUT : exn := DeviceException "timed out".

Definition status_of (model : string) : Status := {|
  is_on := true;
  air_condition_model := model;
  load_power := 2;
  target_temperature := 25;
  swing_mode := Swing_Off;
  fan_speed := Fan_Low;
  mode := Mode_Cool;
  led := PyStr "on";
|}.

(** The entity after construction without a sensor reading and one
    successful poll that reports model X. *)
Definition latched : Entity := exec (Poll (Returned (status_of "X"))) init.

(** The entity with a current temperature of 21.5 from the sensor. *)
Definition warm : Entity :=
  set_current_temperature (Some (43 # 2)%Q : option float) latched.

Definition reading (value : option string) : SensorState := {|
  sensor_state := value;
  sensor_attributes := {[ATTR_UNIT_OF_MEASUREMENT := TEMP_CELSIUS]};
|}.

End Scenario.

(** ** A concrete installation

    The platform configuration of the household, what its device reports
    about itself, and sensor states in other units. *)
Module Installation.
Import PythonMiio MetricHost Scenario.

Definition config : Config := {|
  CONF_HOST := "192.168.1.20";
  CONF_NAME := "Xiaomi AC Companion";
  CONF_TOKEN := "0123456789abcdef0123456789abcdef";
  CONF_MIN_TEMP := 16;
  CONF_MAX_TEMP := 30;
  CONF_SENSOR := "sensor.room";
|}.

Definition device_info : DeviceInfo := {|
  info_model := "lumi.acpartner.v2";
  mac_address := "28:6C:07:00:00:01";
  firmware_version := "1.4.1";
  hardware_version := "Linux";
|}.

Definition reading_in (unit : option string) (value : string) : SensorState :=
  {| sensor_state := Some value;
     sensor_attributes :=
       match unit with
       | Some u => {[ATTR_UNIT_OF_MEASUREMENT := u]}
       | None => ∅
       end |}.

Definition FAN_SPEEDS : list FanSpeed :=
  [Fan_Low; Fan_Medium; Fan_High; Fan_Auto].

(** A status object whose swing mode is a value the enumeration does not
    have: the device is off, and reading the swing mode raises
    [ValueError]. *)
Definition stopped_at_swing : StatusObject := {|
  read_is_on := Returned false;
  read_air_condition_model := Returned "X";
  read_load_power := Returned 2;
  read_target_temperature := Returned 25;
  read_swing_mode := Raised ValueError;
  read_fan_speed := Returned Fan_Low;
  read_mode := Returned Mode_Cool;
  read_led := Returned (PyStr "on");
|}.

End Installation.

(** ** Properties *)

Section Properties.
Context `{miio : Miio} `{hass : Hass}.

(** Unfolds a method down to the state transformer it denotes. *)
Ltac run_method :=
  unfold exec, handle, state_of, trace_of, result_of,
    async_update, async_turn_on, async_turn_off, async_set_temperature,
    async_set_swing_mode, async_set_fan_mode, async_set_operation_mode,
    _send_custom_command, _send_configuration, _async_sensor_changed,
    _async_update_temp, _try_command, async_add_job, _LOGGER_error,
    _LOGGER_debug, try_except, bind, ret, lift, emit, modify, get;
  simpl.

(** *** The command wrapper *)

Lemma _try_command_acknowledged mask_error func ack s :
  _try_command mask_error func (Returned ack) s =
    (s, [Call func; LogDebug "Response received: %s"],
     Returned (bool_decide (ack = SUCCESS))).
Proof. reflexivity. Qed.

Lemma _try_command_transport_failure mask_error func msg s :
  _try_command mask_error func (Raised (DeviceException msg)) s =
    (set_available false s, [Call func; LogError mask_error], Returned false).
Proof. reflexivity. Qed.

Lemma _try_command_other_exception mask_error func e s :
  is_DeviceException e = false →
  _try_command mask_error func (Raised e) s = (s, [Call func], Raised e).
Proof. intros He. run_method. by rewrite He. Qed.

(** C7: the command wrapper returns true exactly when the device method
    returns the success token [['ok']]; every other acknowledgement makes it
    return false; a transport exception is caught, logged once with the
    caller's message, downgrades availability and makes the wrapper return
    false instead of raising. *)
Theorem try_command_success_iff mask_error func answer s :
  (result_of (_try_command mask_error func answer s) = Returned true
     ↔ answer = Returned SUCCESS) ∧
  (∀ ack, answer = Returned ack → ack ≠ SUCCESS →
     result_of (_try_command mask_error func answer s) = Returned false) ∧
  (∀ msg, answer = Raised (DeviceException msg) →
     _try_command mask_error func answer s =
       (set_available false s, [Call func; LogError mask_error],
        Returned false)).
Proof.
  split_and!.
  - destruct answer as [ack|e].
    + rewrite _try_command_acknowledged. unfold result_of; simpl.
      case_bool_decide; split; intros; simplify_eq; done.
    + destruct (is_DeviceException e) eqn:He.
      * destruct e; try discriminate He.
        rewrite _try_command_transport_failure. by split.
      * rewrite _try_command_other_exception by done. by split.
  - intros ack -> Hne. rewrite _try_command_acknowledged.
    unfold result_of; simpl. by rewrite bool_decide_eq_false_2.
  - intros msg ->. apply _try_command_transport_failure.
Qed.

(** Whatever the device answers, the wrapper touches no attribute but
    [_available], and that one only to lower it. *)
Lemma _try_command_frame mask_error func answer s :
  state_of (_try_command mask_error func answer s) = s ∨
  state_of (_try_command mask_error func answer s) = set_available false s.
Proof.
  destruct answer as [ack|e].
  - left. by rewrite _try_command_acknowledged.
  - destruct (is_DeviceException e) eqn:He.
    + right. destruct e; try discriminate He.
      by rewrite _try_command_transport_failure.
    + left. by rewrite _try_command_other_exception.
Qed.

Lemma set_available_same s : set_available (_available s) s = s.
Proof. by destruct s. Qed.

(** *** Turning on and off *)

Lemma async_turn_on_acknowledged ack s :
  state_of (async_turn_on (Returned ack) s) =
    if bool_decide (ack = SUCCESS) then set_state (Some true) s else s.
Proof. run_method. by case_bool_decide. Qed.

Lemma async_turn_off_acknowledged ack s :
  state_of (async_turn_off (Returned ack) s) =
    if bool_decide (ack = SUCCESS) then set_state (Some false) s else s.
Proof. run_method. by case_bool_decide. Qed.

Lemma async_turn_on_raised e s :
  _state (state_of (async_turn_on (Raised e) s)) = _state s.
Proof. run_method. by destruct (is_DeviceException e). Qed.

Lemma async_turn_off_raised e s :
  _state (state_of (async_turn_off (Raised e) s)) = _state s.
Proof. run_method. by destruct (is_DeviceException e). Qed.

(** C6: [turn_on] and [turn_off] assign the on/off flag only when the device
    call succeeds; with any other answer the flag keeps its prior value.  A
    successful [turn_on] followed by a [turn_off] that fails in the transport
    leaves the flag true. *)
Theorem turn_on_off_only_on_success s answer :
  (answer = Returned SUCCESS →
     _state (exec (TurnOn answer) s) = Some true ∧
     _state (exec (TurnOff answer) s) = Some false) ∧
  (answer ≠ Returned SUCCESS →
     _state (exec (TurnOn answer) s) = _state s ∧
     _state (exec (TurnOff answer) s) = _state s) ∧
  (∀ msg,
     _state (exec (TurnOff (Raised (DeviceException msg)))
               (exec (TurnOn (Returned SUCCESS)) s)) = Some true).
Proof.
  split_and!.
  - intros ->. unfold exec, handle.
    by rewrite async_turn_on_acknowledged, async_turn_off_acknowledged.
  - intros Hne. unfold exec, handle. destruct answer as [ack|e].
    + rewrite async_turn_on_acknowledged, async_turn_off_acknowledged.
      rewrite bool_decide_eq_false_2; [done|congruence].
    + by rewrite async_turn_on_raised, async_turn_off_raised.
  - intros msg. unfold exec at 1. unfold handle at 1.
    rewrite async_turn_off_raised. unfold exec, handle.
    by rewrite async_turn_on_acknowledged.
Qed.

(** *** Polling *)

Lemma async_update_transport_failure msg s :
  async_update (Raised (DeviceException msg)) s =
    (set_available false s,
     [Call Device_status;
      LogError "Got exception while fetching the state: %s"],
     Returned ()).
Proof. reflexivity. Qed.

Lemma run_cons ev evs s : run (ev :: evs) s = run evs (exec ev s).
Proof. reflexivity. Qed.

Lemma run_snoc evs ev s : run (evs ++ [ev]) s = exec ev (run evs s).
Proof. unfold run. by rewrite foldl_app. Qed.

Lemma run_failed_polls msgs s :
  run (failed_poll <$> msgs) s =
    match msgs with [] => s | _ => set_available false s end.
Proof.
  induction msgs as [|msg msgs IH] using rev_ind; [done|].
  rewrite fmap_app. change (failed_poll <$> [msg]) with [failed_poll msg].
  rewrite run_snoc, IH. unfold exec, handle, failed_poll.
  rewrite async_update_transport_failure. unfold state_of; simpl.
  by destruct msgs, s.
Qed.

(** C1: in a sequence of polls that all fail with the transport exception,
    each poll returns normally, leaves the availability flag false and leaves
    every cached field (on/off flag, operation mode, fan speed, swing mode,
    target temperature, model, and the attribute dictionary with load power
    and LED) as it was before that poll, hence as it was before the first. *)
Theorem failed_polls_keep_cache s msgs msg :
  let before := run (failed_poll <$> msgs) s in
  let after := exec (failed_poll msg) before in
  result_of (handle (failed_poll msg) before) = Returned () ∧
  _available after = false ∧
  after = set_available false before ∧
  (_state after, _current_operation after, _current_fan_mode after,
   _current_swing_mode after, _target_temperature after,
   _air_condition_model after, _state_attrs after,
   _current_temperature after) =
  (_state s, _current_operation s, _current_fan_mode s,
   _current_swing_mode s, _target_temperature s,
   _air_condition_model s, _state_attrs s, _current_temperature s).
Proof.
  intros before after. subst after. unfold exec, handle, failed_poll at 1 3 4 5.
  rewrite async_update_transport_failure. unfold state_of, result_of; simpl.
  split_and!; try done.
  subst before. rewrite run_failed_polls. by destruct msgs.
Qed.

(** *** The configuration push *)

Lemma _send_configuration_unset answer s :
  _air_condition_model s = None →
  _send_configuration answer s = (s, [LogError MODEL_UNKNOWN], Returned ()).
Proof. intros Hm. run_method. by rewrite Hm. Qed.

Lemma _send_configuration_raises answer s model e :
  _air_condition_model s = Some model →
  bundle model s = Raised e →
  _send_configuration answer s = (s, [], Raised e).
Proof.
  intros Hm Hb. unfold bundle in Hb.
  unfold _send_configuration, bind, get, lift. rewrite Hm.
  repeat (case_match; simplify_eq; try done).
Qed.

Lemma _send_configuration_calls answer s model c :
  _air_condition_model s = Some model →
  bundle model s = Returned c →
  state_of (_send_configuration answer s) =
    state_of (_try_command MASK_CONFIGURATION c answer s) ∧
  trace_of (_send_configuration answer s) =
    trace_of (_try_command MASK_CONFIGURATION c answer s).
Proof.
  intros Hm Hb. unfold bundle in Hb.
  destruct (int_call _) as [n|] eqn:E1; [|done].
  destruct (Power_of _) as [power|] eqn:E2; [|done].
  destruct (getitem OperationMode_getitem _) as [om|] eqn:E3; [|done].
  destruct (getitem FanSpeed_getitem _) as [fs|] eqn:E4; [|done].
  destruct (getitem SwingMode_getitem _) as [sm|] eqn:E5; [|done].
  simplify_eq.
  unfold _send_configuration, bind, get, lift, MASK_CONFIGURATION.
  rewrite Hm, E1, E2, E3, E4, E5.
  destruct (_try_command _ _ _ _) as [[s' t] [b|e]];
    unfold state_of, trace_of, ret; simpl; by rewrite ?app_nil_r.
Qed.

Lemma _send_configuration_frame answer s :
  state_of (_send_configuration answer s) = s ∨
  state_of (_send_configuration answer s) = set_available false s.
Proof.
  destruct (_air_condition_model s) as [model|] eqn:Hm.
  - destruct (bundle model s) as [c|e] eqn:Hb.
    + destruct (_send_configuration_calls answer s model c Hm Hb) as [-> _].
      apply _try_command_frame.
    + left. by rewrite (_send_configuration_raises answer s model e).
  - left. by rewrite _send_configuration_unset.
Qed.

Lemma async_update_success state s :
  async_update (Returned (evaluated state)) s =
    (polled state s, [Call Device_status; LogDebug "Got new state: %s"],
     Returned ()).
Proof. by destruct s as [? ? ? ? ? ? ? [model|] ?]. Qed.

Lemma async_update_other_exception e s :
  is_DeviceException e = false →
  async_update (Raised e) s = (s, [Call Device_status], Raised e).
Proof. intros He. run_method. by rewrite He. Qed.

(** A poll all of whose property reads return is the poll of the values
    read. *)
Lemma async_update_reads state values s :
  read_all state = Returned values →
  async_update (Returned state) s = async_update (Returned (evaluated values)) s.
Proof.
  unfold read_all. intros Hr.
  destruct state as [r1 r2 r3 r4 r5 r6 r7 r8]; cbn in Hr.
  destruct r1 as [on|]; [|done]. destruct r2 as [model|]; [|done].
  destruct r3 as [load|]; [|done]. destruct r4 as [target|]; [|done].
  destruct r5 as [swing|]; [|done]. destruct r6 as [fan|]; [|done].
  destruct r7 as [mode_|]; [|done]. destruct r8 as [led_|]; [|done].
  by simplify_eq.
Qed.

Lemma async_update_stopped state e s :
  read_all state = Raised e →
  async_update (Returned state) s =
    if is_DeviceException e
    then (set_available false (half_polled state s),
          [Call Device_status; LogDebug "Got new state: %s";
           LogError "Got exception while fetching the state: %s"],
          Returned ())
    else (half_polled state s,
          [Call Device_status; LogDebug "Got new state: %s"], Raised e).
Proof.
  unfold read_all, half_polled. intros Hr.
  destruct state as [r1 r2 r3 r4 r5 r6 r7 r8]; cbn in Hr |- *.
  destruct r1 as [on|e1];
    [|simplify_eq; run_method; by destruct (is_DeviceException e)].
  destruct r2 as [model|e2];
    [|simplify_eq; run_method; by destruct (is_DeviceException e)].
  destruct r3 as [load|e3];
    [|simplify_eq; run_method; by destruct (is_DeviceException e)].
  destruct r4 as [target|e4];
    [|simplify_eq; run_method; by destruct (is_DeviceException e)].
  destruct r5 as [swing|e5];
    [|simplify_eq; run_method; by destruct (is_DeviceException e)].
  destruct r6 as [fan|e6];
    [|simplify_eq; run_method; by destruct (is_DeviceException e)].
  destruct r7 as [mode_|e7];
    [|simplify_eq; run_method; by destruct (is_DeviceException e)].
  destruct r8 as [led_|e8]; [done|].
  simplify_eq; run_method; by destruct (is_DeviceException e).
Qed.

(** *** The shape of a step *)

(** The state a method leaves, by event: the attributes it assigns, and the
    availability flag lowered or not by the wrapper. *)
Lemma exec_shape ev s :
  match ev with
  | Poll (Returned state) => exec ev s = polled state s
  | Poll (Raised _) | SendCustomCommand _ _ =>
      exec ev s = s ∨ exec ev s = set_available false s
  | TurnOn _ =>
      exec ev s = s ∨ exec ev s = set_available false s ∨
      exec ev s = set_state (Some true) s
  | TurnOff _ =>
      exec ev s = s ∨ exec ev s = set_available false s ∨
      exec ev s = set_state (Some false) s
  | SetTemperature temperature operation_mode _ =>
      let s1 := with_temperature temperature operation_mode s in
      exec ev s = s1 ∨ exec ev s = set_available false s1
  | SetSwingMode swing_mode _ =>
      let s1 := set_current_swing_mode (Some swing_mode) s in
      exec ev s = s1 ∨ exec ev s = set_available false s1
  | SetFanMode fan _ =>
      let s1 := set_current_fan_mode (Some fan) s in
      exec ev s = s1 ∨ exec ev s = set_available false s1
  | SetOperationMode operation_mode _ =>
      let s1 := set_current_operation (Some operation_mode) s in
      exec ev s = s1 ∨ exec ev s = set_available false s1
  | SensorChanged _ _ _ =>
      exec ev s = s ∨ ∃ t, exec ev s = set_current_temperature (Some t) s
  | PollReading _ =>
      (∃ values, exec ev s = polled values s) ∨
      (∃ available, exec ev s = set_available available s) ∨
      (∃ available is_on,
         exec ev s = set_state (Some is_on) (set_available available s))
  end.
Proof.
  destruct ev as [[state|e]|answer|answer|temperature operation_mode answer
                 |swing_mode answer|fan answer|operation_mode answer
                 |entity_id old_state new_state|command answer|obj];
    unfold exec, handle.
  - by rewrite async_update_success.
  - destruct (is_DeviceException e) eqn:He.
    + destruct e; try discriminate He.
      right. by rewrite async_update_transport_failure.
    + left. by rewrite async_update_other_exception.
  - destruct answer as [ack|e].
    + rewrite async_turn_on_acknowledged. case_bool_decide; auto.
    + run_method. destruct (is_DeviceException e); auto.
  - destruct answer as [ack|e].
    + rewrite async_turn_off_acknowledged. case_bool_decide; auto.
    + run_method. destruct (is_DeviceException e); auto.
  - set (s1 := with_temperature temperature operation_mode s).
    replace (state_of (async_set_temperature temperature operation_mode
                         answer s))
      with (state_of (_send_configuration answer s1)).
    + apply _send_configuration_frame.
    + subst s1. unfold async_set_temperature, with_temperature, bind, modify,
        ret, state_of.
      destruct temperature, operation_mode; simpl;
        by destruct (_send_configuration _ _) as [[? ?] ?].
  - set (s1 := set_current_swing_mode (Some swing_mode) s).
    replace (state_of (async_set_swing_mode swing_mode answer s))
      with (state_of (_send_configuration answer s1)).
    + apply _send_configuration_frame.
    + subst s1. unfold async_set_swing_mode, bind, modify, state_of. simpl.
      by destruct (_send_configuration _ _) as [[? ?] ?].
  - set (s1 := set_current_fan_mode (Some fan) s).
    replace (state_of (async_set_fan_mode fan answer s))
      with (state_of (_send_configuration answer s1)).
    + apply _send_configuration_frame.
    + subst s1. unfold async_set_fan_mode, bind, modify, state_of. simpl.
      by destruct (_send_configuration _ _) as [[? ?] ?].
  - set (s1 := set_current_operation (Some operation_mode) s).
    replace (state_of (async_set_operation_mode operation_mode answer s))
      with (state_of (_send_configuration answer s1)).
    + apply _send_configuration_frame.
    + subst s1. unfold async_set_operation_mode, bind, modify, state_of. simpl.
      by destruct (_send_configuration _ _) as [[? ?] ?].
  - run_method. destruct new_state as [[[value|] attrs]|]; simpl; auto.
    destruct (String.eqb value "unknown"); auto.
    destruct (float_call value) as [x|e]; simpl.
    + destruct (units_temperature x _) as [t|e]; simpl; eauto.
      destruct (is_ValueError e); auto.
    + destruct (is_ValueError e); auto.
  - unfold _send_custom_command.
    destruct (String.eqb _ _); unfold bind, state_of, ret;
      match goal with
      | |- context [_try_command ?m ?c ?a ?s] =>
          destruct (_try_command_frame m c a s) as [Hs|Hs];
          unfold state_of in Hs;
          destruct (_try_command m c a s) as [[? ?] [?|?]]; simpl in *; auto
      end.
  - destruct (read_all obj) as [values|e] eqn:Hr.
    + left. exists values. rewrite (async_update_reads obj values) by done.
      by rewrite async_update_success.
    + right. rewrite (async_update_stopped obj e) by done.
      unfold half_polled.
      destruct (is_DeviceException e), (read_is_on obj); eauto.
Qed.

(** *** The setters run the push on the entity with the new attribute *)

Lemma async_set_temperature_unfold temperature operation_mode answer s :
  async_set_temperature temperature operation_mode answer s =
    _send_configuration answer (with_temperature temperature operation_mode s).
Proof.
  unfold async_set_temperature, with_temperature, bind, modify, ret.
  destruct temperature, operation_mode; simpl;
    by destruct (_send_configuration _ _) as [[? ?] ?].
Qed.

Lemma async_set_swing_mode_unfold swing_mode answer s :
  async_set_swing_mode swing_mode answer s =
    _send_configuration answer (set_current_swing_mode (Some swing_mode) s).
Proof.
  unfold async_set_swing_mode, bind, modify. simpl.
  by destruct (_send_configuration _ _) as [[? ?] ?].
Qed.

Lemma async_set_fan_mode_unfold fan answer s :
  async_set_fan_mode fan answer s =
    _send_configuration answer (set_current_fan_mode (Some fan) s).
Proof.
  unfold async_set_fan_mode, bind, modify. simpl.
  by destruct (_send_configuration _ _) as [[? ?] ?].
Qed.

Lemma async_set_operation_mode_unfold operation_mode answer s :
  async_set_operation_mode operation_mode answer s =
    _send_configuration answer
      (set_current_operation (Some operation_mode) s).
Proof.
  unfold async_set_operation_mode, bind, modify. simpl.
  by destruct (_send_configuration _ _) as [[? ?] ?].
Qed.

(** A setter is the push on some entity with the same model. *)
Lemma setter_is_push ev s :
  is_setter ev = true →
  ∃ answer s1,
    handle ev s = _send_configuration answer s1 ∧
    _air_condition_model s1 = _air_condition_model s.
Proof.
  destruct ev as [| | |temperature operation_mode answer|swing_mode answer
                 |fan answer|operation_mode answer| | |obj]; try discriminate;
    intros _; simpl; eexists answer, _.
  - split; [apply async_set_temperature_unfold|].
    by destruct temperature, operation_mode.
  - split; [apply async_set_swing_mode_unfold|done].
  - split; [apply async_set_fan_mode_unfold|done].
  - split; [apply async_set_operation_mode_unfold|done].
Qed.

(** Splits the alternatives of [exec_shape] and rewrites with each. *)
Ltac use_shape Hs :=
  simpl in Hs;
  repeat match type of Hs with
         | _ ∨ _ => destruct Hs as [Hs|Hs]
         | ∃ _, _ => destruct Hs as [? Hs]
         end;
  rewrite Hs; simpl.

(** *** The model latch *)

Lemma model_kept ev s model :
  _air_condition_model s = Some model →
  _air_condition_model (exec ev s) = Some model.
Proof.
  intros Hm. pose proof (exec_shape ev s) as Hs.
  destruct ev as [[state|e]| | |temperature operation_mode ?| | | | | |obj];
    use_shape Hs; rewrite ?Hm; try done.
  all: by destruct temperature, operation_mode.
Qed.

Lemma model_kept_run evs s model :
  _air_condition_model s = Some model →
  _air_condition_model (run evs s) = Some model.
Proof.
  revert s. induction evs as [|ev evs IH]; intros s Hm; [done|].
  rewrite run_cons. apply IH. by apply model_kept.
Qed.

Lemma model_unset_kept ev s :
  is_successful_poll ev = false →
  _air_condition_model s = None →
  _air_condition_model (exec ev s) = None.
Proof.
  intros Hp Hm. pose proof (exec_shape ev s) as Hs.
  destruct ev as [[state|e]| | |temperature operation_mode ?| | | | | |obj];
    try discriminate Hp; use_shape Hs; try done.
  all: by destruct temperature, operation_mode.
Qed.

Lemma run_app evs1 evs2 s : run (evs1 ++ evs2) s = run evs2 (run evs1 s).
Proof. unfold run. apply foldl_app. Qed.

(** C2: once a successful poll has reported model X to an entity that has
    no model yet, the model identifier is X after that poll and after every
    later history, whatever later polls report; from a state without a model
    (as the constructor leaves it), the first successful poll of a history
    is the one that latches. *)
Theorem first_poll_latches_model s evs0 state evs :
  _air_condition_model s = None →
  forallb (λ ev, negb (is_successful_poll ev)) evs0 = true →
  _air_condition_model (exec (Poll (Returned state)) (run evs0 s)) =
    Some (air_condition_model state) ∧
  _air_condition_model (run (evs0 ++ Poll (Returned state) :: evs) s) =
    Some (air_condition_model state).
Proof.
  intros Hm Hno.
  assert (_air_condition_model (run evs0 s) = None) as Hm0.
  { clear evs state. revert s Hm. induction evs0 as [|ev evs0 IH];
      intros s Hm; [done|].
    cbn [forallb] in Hno. apply andb_true_iff in Hno as [Hev Hno].
    rewrite run_cons. apply IH; [done|]. apply model_unset_kept; [|done].
    by destruct (is_successful_poll ev). }
  assert (_air_condition_model (exec (Poll (Returned state)) (run evs0 s)) =
            Some (air_condition_model state)) as Hlatch.
  { unfold exec, handle. rewrite async_update_success.
    unfold state_of, polled. cbn [_air_condition_model fst]. by rewrite Hm0. }
  split; [exact Hlatch|].
  rewrite run_app, run_cons. by apply model_kept_run.
Qed.

(** *** What reaches the device *)

Lemma _try_command_trace mask_error func answer s :
  trace_of (_try_command mask_error func answer s) =
    [Call func; LogDebug "Response received: %s"] ∨
  trace_of (_try_command mask_error func answer s) =
    [Call func; LogError mask_error] ∨
  trace_of (_try_command mask_error func answer s) = [Call func].
Proof.
  destruct answer as [ack|e].
  - left. by rewrite _try_command_acknowledged.
  - destruct (is_DeviceException e) eqn:He.
    + right; left. destruct e; try discriminate He.
      by rewrite _try_command_transport_failure.
    + right; right. by rewrite _try_command_other_exception.
Qed.

(** The effects of the wrapper do not depend on the entity. *)
Lemma _try_command_trace_state mask_error func answer s s' :
  trace_of (_try_command mask_error func answer s) =
  trace_of (_try_command mask_error func answer s').
Proof.
  destruct answer as [ack|e]; [done|].
  destruct (is_DeviceException e) eqn:He.
  - by destruct e; try discriminate He.
  - by rewrite !_try_command_other_exception.
Qed.

Lemma bundle_returns model s c :
  bundle model s = Returned c →
  ∃ power operation_mode fan_speed swing_mode,
    c = Device_send_configuration model power operation_mode
          (_target_temperature s) fan_speed swing_mode Led_Off.
Proof.
  unfold bundle. intros Hb.
  repeat (case_match; simplify_eq). eauto.
Qed.

Lemma bundle_resolves_iff model s :
  bundle_resolves s ↔ ∃ c, bundle model s = Returned c.
Proof.
  unfold bundle_resolves, bundle, int_call, Power_of, getitem.
  destruct (_state s) as [b|]; simpl.
  2: { split; [intros [[? [=]] _]|intros [? [=]]]. }
  destruct (Power_call (Z.b2z b)) as [power|]; simpl.
  2: { split; [intros [[? [=]] _]|intros [? [=]]]. }
  destruct (_current_operation s) as [om|]; simpl.
  2: { split; [intros (_ & [? [=]] & _)|intros [? [=]]]. }
  destruct (OperationMode_getitem om); simpl.
  2: { split; [intros (_ & [? [=]] & _)|intros [? [=]]]. }
  destruct (_current_fan_mode s) as [fm|]; simpl.
  2: { split; [intros (_ & _ & [? [=]] & _)|intros [? [=]]]. }
  destruct (FanSpeed_getitem fm); simpl.
  2: { split; [intros (_ & _ & [? [=]] & _)|intros [? [=]]]. }
  destruct (_current_swing_mode s) as [sm|]; simpl.
  2: { split; [intros (_ & _ & _ & [? [=]])|intros [? [=]]]. }
  destruct (SwingMode_getitem sm); simpl.
  2: { split; [intros (_ & _ & _ & [? [=]])|intros [? [=]]]. }
  split; eauto 10.
Qed.

Lemma count_push_try_command mask_error c answer s :
  is_push (Call c) = true →
  count is_push (trace_of (_try_command mask_error c answer s)) = 1%nat.
Proof.
  intros Hc. unfold count.
  destruct (_try_command_trace mask_error c answer s) as [->|[->| ->]];
    rewrite filter_cons_True by done; simpl;
    by rewrite ?filter_cons_False, ?filter_nil by (simpl; congruence).
Qed.

(** The pushes of a configuration push: one if the model is set and the
    arguments evaluate, none otherwise. *)
Lemma _send_configuration_pushes answer s :
  (is_Some (_air_condition_model s) ∧ bundle_resolves s ∧
   count is_push (trace_of (_send_configuration answer s)) = 1%nat) ∨
  (¬ (is_Some (_air_condition_model s) ∧ bundle_resolves s) ∧
   count is_push (trace_of (_send_configuration answer s)) = 0%nat).
Proof.
  destruct (_air_condition_model s) as [model|] eqn:Hm.
  - destruct (bundle model s) as [c|e] eqn:Hb.
    + left. split_and!; [done|apply (bundle_resolves_iff model); eauto|].
      destruct (_send_configuration_calls answer s model c Hm Hb) as [_ ->].
      apply count_push_try_command.
      by destruct (bundle_returns model s c Hb) as (?&?&?&?&->).
    + right. split.
      * intros [_ [c Hc]%(bundle_resolves_iff model)]. congruence.
      * by rewrite (_send_configuration_raises answer s model e).
  - right. split; [by intros [[? [=]] _]|].
    by rewrite _send_configuration_unset.
Qed.

Lemma bundle_raises model s e :
  bundle model s = Raised e → is_DeviceException e = false.
Proof.
  unfold bundle, int_call, Power_of, getitem. intros Hb.
  repeat (case_match; simplify_eq); done.
Qed.

(** With the model set, the push whose arguments do not all evaluate
    raises before anything else happens. *)
Lemma _send_configuration_unresolved answer s :
  is_Some (_air_condition_model s) → ¬ bundle_resolves s →
  ∃ e, is_DeviceException e = false ∧
       _send_configuration answer s = (s, [], Raised e).
Proof.
  intros [model Hm] Hno.
  destruct (bundle model s) as [c|e] eqn:Hb.
  - destruct Hno. apply (bundle_resolves_iff model). eauto.
  - exists e. split; [by eapply bundle_raises|].
    by apply _send_configuration_raises with model.
Qed.

(** C3 (amended): a configuration push reaches the device exactly when the
    model identifier is set (not [None]; any string counts) and the arguments
    of the push evaluate, that is, the on/off flag converts to a [Power] and
    the cached mode, fan and swing names are members of their enumerations.
    With the model set and an argument that does not evaluate, the push
    raises (not the transport exception) before any device call or log
    record and leaves the entity as it was; with the on/off flag converted,
    it raises [KeyError] with the name of the first of the operation mode,
    fan mode and swing mode whose name is no member.  With the model unset,
    each of the four setters makes no
    device call at all, logs one error and returns. *)
Theorem push_iff_model_and_bundle s answer :
  (count is_push (trace_of (_send_configuration answer s)) = 1%nat ↔
     is_Some (_air_condition_model s) ∧ bundle_resolves s) ∧
  (count is_push (trace_of (_send_configuration answer s)) = 0%nat ↔
     ¬ (is_Some (_air_condition_model s) ∧ bundle_resolves s)) ∧
  (∀ ev, is_setter ev = true → _air_condition_model s = None →
     count is_call (trace_of (handle ev s)) = 0%nat ∧
     count is_error (trace_of (handle ev s)) = 1%nat ∧
     result_of (handle ev s) = Returned ()) ∧
  (is_Some (_air_condition_model s) → ¬ bundle_resolves s →
     ∃ e, is_DeviceException e = false ∧
          _send_configuration answer s = (s, [], Raised e)) ∧
  (∀ model on power,
     _air_condition_model s = Some model →
     _state s = Some on → Power_call (Z.b2z on) = Some power →
     (∀ name,
        _current_operation s = Some name →
        OperationMode_getitem name = None →
        _send_configuration answer s = (s, [], Raised (KeyError (Some name))))
     ∧
     (∀ name,
        is_Some (_current_operation s ≫= OperationMode_getitem) →
        _current_fan_mode s = Some name →
        FanSpeed_getitem name = None →
        _send_configuration answer s = (s, [], Raised (KeyError (Some name))))
     ∧
     (∀ name,
        is_Some (_current_operation s ≫= OperationMode_getitem) →
        is_Some (_current_fan_mode s ≫= FanSpeed_getitem) →
        _current_swing_mode s = Some name →
        SwingMode_getitem name = None →
        _send_configuration answer s =
          (s, [], Raised (KeyError (Some name))))).
Proof.
  split_and!.
  - destruct (_send_configuration_pushes answer s) as [(?&?&->)|[? ->]];
      split; try done.
  - destruct (_send_configuration_pushes answer s) as [(?&?&->)|[? ->]];
      split; try done.
    intros Hn. destruct Hn. done.
  - intros ev Hev Hm.
    destruct (setter_is_push ev s Hev) as (answer' & s1 & -> & Hm1).
    rewrite _send_configuration_unset by congruence. done.
  - apply _send_configuration_unresolved.
  - intros model on power Hm Hon Hp. split_and!.
    + intros name Hop Hno.
      apply _send_configuration_raises with model; [done|].
      unfold bundle, int_call, Power_of, getitem.
      by rewrite Hon, Hp, Hop, Hno.
    + intros name [om Hom] Hfan Hno.
      apply _send_configuration_raises with model; [done|].
      unfold bundle, int_call, Power_of, getitem. rewrite Hon, Hp.
      destruct (_current_operation s) as [op|]; [|done]. simpl in Hom.
      by rewrite Hom, Hfan, Hno.
    + intros name [om Hom] [fm Hfm] Hswing Hno.
      apply _send_configuration_raises with model; [done|].
      unfold bundle, int_call, Power_of, getitem. rewrite Hon, Hp.
      destruct (_current_operation s) as [op|]; [|done]. simpl in Hom.
      destruct (_current_fan_mode s) as [fan|]; [|done]. simpl in Hfm.
      by rewrite Hom, Hfm, Hswing, Hno.
Qed.

Lemma bundle_led_off model s c :
  bundle model s = Returned c → pushes_led_off (Call c).
Proof. by intros (?&?&?&?&->)%bundle_returns. Qed.

Lemma _try_command_led_off mask_error c answer s :
  pushes_led_off (Call c) →
  Forall pushes_led_off (trace_of (_try_command mask_error c answer s)).
Proof.
  intros Hc.
  destruct (_try_command_trace mask_error c answer s) as [->|[->| ->]];
    repeat constructor; done.
Qed.

Lemma _send_configuration_led_off answer s :
  Forall pushes_led_off (trace_of (_send_configuration answer s)).
Proof.
  destruct (_air_condition_model s) as [model|] eqn:Hm.
  - destruct (bundle model s) as [c|e] eqn:Hb.
    + destruct (_send_configuration_calls answer s model c Hm Hb) as [_ ->].
      apply _try_command_led_off. by eapply bundle_led_off.
    + rewrite (_send_configuration_raises answer s model e) by done.
      constructor.
  - rewrite _send_configuration_unset by done. by repeat constructor.
Qed.

Lemma async_update_trace state s :
  trace_of (async_update (Returned state) s) =
    [Call Device_status; LogDebug "Got new state: %s"] ∨
  trace_of (async_update (Returned state) s) =
    [Call Device_status; LogDebug "Got new state: %s";
     LogError "Got exception while fetching the state: %s"].
Proof.
  destruct (read_all state) as [values|e] eqn:Hr.
  - left. rewrite (async_update_reads state values) by done.
    by rewrite async_update_success.
  - rewrite (async_update_stopped state e) by done.
    destruct (is_DeviceException e); auto.
Qed.

Lemma handle_led_off ev s : Forall pushes_led_off (trace_of (handle ev s)).
Proof.
  destruct ev as [[state|e]|answer|answer|temperature operation_mode answer
                 |swing_mode answer|fan answer|operation_mode answer
                 |entity_id old_state new_state|command answer|obj]; simpl.
  - rewrite async_update_success. by repeat constructor.
  - destruct (is_DeviceException e) eqn:He.
    + destruct e; try discriminate He.
      rewrite async_update_transport_failure. by repeat constructor.
    + rewrite async_update_other_exception by done. by repeat constructor.
  - unfold async_turn_on, bind.
    pose proof (_try_command_led_off "Turning the miio device on failed."
                  Device_on answer s I) as Ht.
    destruct (_try_command _ _ _ _) as [[s' t] [[]|e]]; unfold trace_of in *;
      simpl in *; by rewrite ?app_nil_r.
  - unfold async_turn_off, bind.
    pose proof (_try_command_led_off "Turning the miio device off failed."
                  Device_off answer s I) as Ht.
    destruct (_try_command _ _ _ _) as [[s' t] [[]|e]]; unfold trace_of in *;
      simpl in *; by rewrite ?app_nil_r.
  - rewrite async_set_temperature_unfold. apply _send_configuration_led_off.
  - rewrite async_set_swing_mode_unfold. apply _send_configuration_led_off.
  - rewrite async_set_fan_mode_unfold. apply _send_configuration_led_off.
  - rewrite async_set_operation_mode_unfold.
    apply _send_configuration_led_off.
  - run_method. destruct new_state as [[[value|] attrs]|]; simpl;
      try by constructor.
    destruct (String.eqb value "unknown"); [by constructor|].
    destruct (float_call value) as [x|e]; simpl.
    + destruct (units_temperature x _) as [t|e]; simpl; [by constructor|].
      destruct (is_ValueError e); by repeat constructor.
    + destruct (is_ValueError e); by repeat constructor.
  - unfold _send_custom_command.
    destruct (String.eqb _ _); unfold bind, ret;
      match goal with
      | |- context [_try_command ?m ?c ?a ?s] =>
          pose proof (_try_command_led_off m c a s I) as Ht;
          destruct (_try_command m c a s) as [[? ?] [?|?]];
          unfold trace_of in *; simpl in *; by rewrite ?app_nil_r
      end.
  - destruct (async_update_trace obj s) as [->| ->]; by repeat constructor.
Qed.

(** C9: in every history from every state, each configuration push that
    reaches the device carries [Led.Off]; and the push does not depend on
    the attribute dictionary, where the LED value reported by the last poll
    is kept. *)
Theorem push_led_always_off s evs :
  Forall pushes_led_off (trace evs s) ∧
  (∀ attrs answer,
     trace_of (_send_configuration answer (set_state_attrs attrs s)) =
     trace_of (_send_configuration answer s)).
Proof.
  split.
  - revert s. induction evs as [|ev evs IH]; intros s; simpl.
    + constructor.
    + apply Forall_app. split; [apply handle_led_off|apply IH].
  - intros attrs answer.
    destruct (_air_condition_model s) as [model|] eqn:Hm.
    + assert (bundle model (set_state_attrs attrs s) = bundle model s) as Hbs
        by done.
      destruct (bundle model s) as [c|e] eqn:Hb.
      * destruct (_send_configuration_calls answer s model c Hm Hb)
          as [_ ->].
        destruct (_send_configuration_calls answer (set_state_attrs attrs s)
                    model c Hm Hbs) as [_ ->].
        apply _try_command_trace_state.
      * rewrite (_send_configuration_raises answer s model e) by done.
        by rewrite (_send_configuration_raises answer
                      (set_state_attrs attrs s) model e).
    + rewrite !_send_configuration_unset; done.
Qed.

(** *** Availability *)

Lemma __init___shape sensor_entity_id current :
  state_of (__init__ sensor_entity_id current) = init ∨
  ∃ t, state_of (__init__ sensor_entity_id current) =
         set_current_temperature (Some t) init.
Proof.
  unfold __init__. destruct (String.eqb sensor_entity_id ""); [by left|].
  destruct current as [sensor|]; [|by left].
  apply (exec_shape (SensorChanged sensor_entity_id None (Some sensor)) init).
Qed.




(** *** The sensor listener *)

(** C5: a sensor notification without a new state, or whose state value is
    absent or ['unknown'], changes nothing; a value that [float] reads, with
    the unit of the host's unit system, becomes the current temperature; a
    value that [float] rejects is logged once and the cached current
    temperature, like every other attribute, stays. *)
Theorem sensor_update s entity_id old_state :
  handle (SensorChanged entity_id old_state None) s = (s, [], Returned ()) ∧
  (∀ new_state,
     sensor_state new_state = None ∨ sensor_state new_state = Some "unknown" →
     handle (SensorChanged entity_id old_state (Some new_state)) s =
       (s, [], Returned ())) ∧
  (∀ new_state value x,
     sensor_state new_state = Some value → value ≠ "unknown" →
     float_call value = Returned x →
     sensor_attributes new_state !! ATTR_UNIT_OF_MEASUREMENT =
       Some units_temperature_unit →
     handle (SensorChanged entity_id old_state (Some new_state)) s =
       (set_current_temperature (Some x) s, [], Returned ())) ∧
  (∀ new_state value,
     sensor_state new_state = Some value → value ≠ "unknown" →
     float_call value = Raised ValueError →
     handle (SensorChanged entity_id old_state (Some new_state)) s =
       (s, [LogError "Unable to update from sensor: %s"], Returned ())).
Proof.
  split_and!.
  - reflexivity.
  - intros new_state [Hv|Hv]; simpl; unfold _async_update_temp;
      by rewrite Hv.
  - intros new_state value x Hv Hne Hx Hu. simpl.
    unfold _async_update_temp. rewrite Hv.
    apply String.eqb_neq in Hne. rewrite Hne.
    unfold try_except, bind, lift, modify. rewrite Hx, Hu.
    by rewrite units_temperature_same.
  - intros new_state value Hv Hne Hx. simpl.
    unfold _async_update_temp. rewrite Hv.
    apply String.eqb_neq in Hne. rewrite Hne.
    unfold try_except, bind, lift. by rewrite Hx.
Qed.

(** *** Raw commands *)

(** C8: the raw-command sender looks at the first two characters of the
    command and at nothing else: with ['01'] there, the one device call it
    makes is [send_command] with the command; with anything else, it is
    [send_ir_code] with the command. *)
Theorem raw_command_dispatch command answer s :
  (String.substring 0 2 command = "01" →
     calls (trace_of (_send_custom_command command answer s)) =
       [Device_send_command command]) ∧
  (String.substring 0 2 command ≠ "01" →
     calls (trace_of (_send_custom_command command answer s)) =
       [Device_send_ir_code command]).
Proof.
  assert (∀ c, calls (trace_of (
      (_try_command MASK_CONFIGURATION c answer ;;; ret ())%py s)) = [c])
    as Hcall.
  { intros c. unfold bind, ret.
    pose proof (_try_command_trace MASK_CONFIGURATION c answer s) as Ht.
    destruct (_try_command _ _ _ _) as [[s' t] [b|e]];
      unfold trace_of in *; simpl in *; rewrite ?app_nil_r;
      by destruct Ht as [->|[->| ->]]. }
  unfold _send_custom_command. split.
  - intros Hp. apply String.eqb_eq in Hp. rewrite Hp. apply Hcall.
  - intros Hp. apply String.eqb_neq in Hp. rewrite Hp. apply Hcall.
Qed.

(** *** What the push reads is assigned *)

Lemma bundle_set_kept ev s :
  bundle_set s → bundle_set (exec ev s).
Proof.
  intros (?&?&?&?&?). pose proof (exec_shape ev s) as Hs.
  destruct ev as [[state|e]| | |temperature operation_mode ?| | | | | |obj];
    use_shape Hs; unfold bundle_set; simpl; try done.
  all: destruct temperature, operation_mode; simpl; done.
Qed.

Lemma polled_bundle_set state s : bundle_set (polled state s).
Proof. unfold bundle_set, polled; simpl. by split_and!. Qed.

(** Right after a successful poll the arguments of the push evaluate: the
    names are those of the members the device reported. *)
Lemma polled_bundle_resolves state s : bundle_resolves (polled state s).
Proof.
  unfold bundle_resolves, polled; simpl.
  rewrite OperationMode_getitem_name, FanSpeed_getitem_name,
    SwingMode_getitem_name.
  split_and!; try done. apply Power_call_bool.
Qed.

Lemma __init___model_unset sensor_entity_id current :
  _air_condition_model (state_of (__init__ sensor_entity_id current)) = None.
Proof. by destruct (__init___shape sensor_entity_id current) as [->|[x ->]]. Qed.

Lemma reachable_invariant s :
  reachable s → is_Some (_air_condition_model s) → bundle_set s.
Proof.
  induction 1 as [id current s t Hinit|ev s Hr IH].
  - assert (_air_condition_model s = None) as Hm.
    { pose proof (__init___shape id current) as Hs. rewrite Hinit in Hs.
      unfold state_of in Hs; simpl in Hs. by destruct Hs as [->|[x ->]]. }
    rewrite Hm. by intros [? [=]].
  - destruct (_air_condition_model s) as [model|] eqn:Hm.
    + intros _. by apply bundle_set_kept, IH.
    + destruct (is_successful_poll ev) eqn:Hp.
      * destruct ev as [[state|]| | | | | | | | |obj]; try discriminate Hp.
        -- intros _. unfold exec, handle. rewrite async_update_success.
           apply polled_bundle_set.
        -- pose proof (exec_shape (PollReading obj) s) as Hs.
           use_shape Hs; rewrite ?Hm; by intros [? [=]].
      * rewrite model_unset_kept by done. by intros [? [=]].
Qed.

Lemma bundle_reads_assigned s model :
  bundle_set s →
  bundle model s ≠ Raised TypeError ∧
  bundle model s ≠ Raised (KeyError None) ∧
  (∀ power operation_mode target fan_speed swing_mode led,
     bundle model s =
       Returned (Device_send_configuration model power operation_mode target
                   fan_speed swing_mode led) →
     is_Some target).
Proof.
  intros ([b Hb] & [om Hom] & [fm Hfm] & [sm Hsm] & [tt Htt]).
  unfold bundle, int_call, Power_of, getitem.
  rewrite Hb, Hom, Hfm, Hsm, Htt.
  split_and!; repeat case_match; simplify_eq; try done.
  intros; by simplify_eq.
Qed.

(** C10: in every state the entity can reach, if the model identifier is
    set then so are the on/off flag, the operation mode, the fan mode, the
    swing mode and the target temperature; so the configuration push never
    fails on an unassigned attribute ([int(None)] is a [TypeError], [E[None]]
    a [KeyError] of [None]) when the device answers, and a push that reaches
    the device never carries an unassigned target temperature. *)
Theorem model_set_implies_bundle_set s model :
  reachable s →
  _air_condition_model s = Some model →
  bundle_set s ∧
  (∀ ack,
     result_of (_send_configuration (Returned ack) s) ≠ Raised TypeError ∧
     result_of (_send_configuration (Returned ack) s) ≠
       Raised (KeyError None)) ∧
  (∀ answer m power operation_mode target fan_speed swing_mode led,
     Call (Device_send_configuration m power operation_mode target fan_speed
             swing_mode led) ∈ trace_of (_send_configuration answer s) →
     is_Some target).
Proof.
  intros Hr Hm.
  assert (bundle_set s) as Hset.
  { apply reachable_invariant; [done|]. by rewrite Hm. }
  destruct (bundle_reads_assigned s model Hset) as (Hty & Hkey & Htarget).
  split_and!; [done| |].
  - intros ack. destruct (bundle model s) as [c|e] eqn:Hb.
    + unfold _send_configuration, bind, get, lift, bundle in *.
      rewrite Hm. repeat (case_match; simplify_eq; try done).
    + rewrite (_send_configuration_raises _ s model e) by done.
      unfold result_of; simpl. split; congruence.
  - intros answer m power om target fs sm led Hin.
    destruct (bundle model s) as [c|e] eqn:Hb.
    + destruct (_send_configuration_calls answer s model c Hm Hb) as [_ Ht].
      rewrite Ht in Hin.
      destruct (bundle_returns model s c Hb) as (?&?&?&?&Hshape).
      destruct (_try_command_trace MASK_CONFIGURATION c answer s)
        as [Hc|[Hc|Hc]]; rewrite Hc in Hin;
        repeat (apply elem_of_cons in Hin as [Hin|Hin]; simplify_eq);
        try (by apply elem_of_nil in Hin); apply Hset.
    + rewrite (_send_configuration_raises _ s model e) in Hin by done.
      by apply elem_of_nil in Hin.
Qed.

(** ** Further properties of the class *)

#[local] Set Warnings "-clear-no-such-hyp".

(** *** What a successful poll leaves *)

Lemma dict_update_lookup_other (d : gmap string pyval) items k :
  k ∉ items.*1 → dict_update d items !! k = d !! k.
Proof.
  unfold dict_update. revert d.
  induction items as [|[k' v] items IH]; intros d Hk; [done|].
  simpl in *. apply not_elem_of_cons in Hk as [Hne Hk].
  rewrite IH by done. by rewrite lookup_insert_ne.
Qed.

Lemma dict_update_dom (d : gmap string pyval) items :
  dom (dict_update d items) = dom d ∪ list_to_set items.*1.
Proof.
  unfold dict_update. revert d.
  induction items as [|[k v] items IH]; intros d; simpl.
  - set_solver.
  - rewrite IH, dom_insert_L. set_solver.
Qed.

Lemma polled_mirrors values s :
  Climate.available (polled values s) = true ∧
  Climate.is_on (polled values s) = Some (is_on values) ∧
  Climate.current_operation (polled values s) =
    Some (OperationMode_name (mode values)) ∧
  Climate.current_fan_mode (polled values s) =
    Some (FanSpeed_name (fan_speed values)) ∧
  Climate.current_swing_mode (polled values s) =
    Some (SwingMode_name (swing_mode values)) ∧
  Climate.target_temperature (polled values s) =
    Some (Int (target_temperature values)) ∧
  Climate.current_temperature (polled values s) =
    Climate.current_temperature s ∧
  Climate.device_state_attributes (polled values s)
    !! ATTR_AIR_CONDITION_MODEL = Some (PyStr (air_condition_model values)) ∧
  Climate.device_state_attributes (polled values s) !! ATTR_LOAD_POWER =
    Some (PyInt (load_power values)) ∧
  Climate.device_state_attributes (polled values s) !! ATTR_TEMPERATURE =
    Some (PyInt (target_temperature values)) ∧
  Climate.device_state_attributes (polled values s) !! ATTR_SWING_MODE =
    Some (PyStr (SwingMode_name (swing_mode values))) ∧
  Climate.device_state_attributes (polled values s) !! ATTR_FAN_SPEED =
    Some (PyStr (FanSpeed_name (fan_speed values))) ∧
  Climate.device_state_attributes (polled values s) !! ATTR_OPERATION_MODE =
    Some (PyStr (OperationMode_name (mode values))) ∧
  Climate.device_state_attributes (polled values s) !! ATTR_LED =
    Some (led values) ∧
  (∀ k, k ∉ ATTRIBUTE_KEYS →
     Climate.device_state_attributes (polled values s) !! k =
     Climate.device_state_attributes s !! k).
Proof.
  unfold polled, Climate.available, Climate.is_on,
    Climate.current_operation, Climate.current_fan_mode,
    Climate.current_swing_mode, Climate.target_temperature,
    Climate.current_temperature, Climate.device_state_attributes.
  cbn [_available _state _state_attrs _current_temperature
       _current_swing_mode _current_operation _current_fan_mode
       _target_temperature].
  split_and!; try reflexivity.
  1-7: unfold dict_update; cbn [foldl fst snd];
       repeat (first [apply lookup_insert_eq
                     |rewrite lookup_insert_ne by discriminate]).
  intros k Hk. apply dict_update_lookup_other.
  cbn [fmap list_fmap fst]. unfold ATTRIBUTE_KEYS in Hk. set_solver.
Qed.

(** X1: a poll whose status call returned and whose every property read
    returned leaves the entity available with the properties of the status:
    on/off flag, the names of the reported mode, fan speed and swing mode,
    the target temperature; the attribute dictionary gives the value read
    under each of its seven keys and keeps any other entry; the current
    temperature is not touched.  A poll whose status call returned and that
    a property read stops has assigned the availability and, if that read
    returned, the on/off flag, and nothing else: modes, target temperature,
    dictionary and model are as before; the exception of the read leaves
    the method, unless it is the transport exception, which is caught and
    makes the entity unavailable. *)
Theorem poll_mirrors_status state s :
  (∀ values, read_all state = Returned values →
     handle (PollReading state) s =
       (polled values s, [Call Device_status; LogDebug "Got new state: %s"],
        Returned ()) ∧
     handle (PollReading state) s = handle (Poll (Returned values)) s ∧
     Climate.available (polled values s) = true ∧
     Climate.is_on (polled values s) = Some (is_on values) ∧
     Climate.current_operation (polled values s) =
       Some (OperationMode_name (mode values)) ∧
     Climate.current_fan_mode (polled values s) =
       Some (FanSpeed_name (fan_speed values)) ∧
     Climate.current_swing_mode (polled values s) =
       Some (SwingMode_name (swing_mode values)) ∧
     Climate.target_temperature (polled values s) =
       Some (Int (target_temperature values)) ∧
     Climate.current_temperature (polled values s) =
       Climate.current_temperature s ∧
     Climate.device_state_attributes (polled values s)
       !! ATTR_AIR_CONDITION_MODEL =
       Some (PyStr (air_condition_model values)) ∧
     Climate.device_state_attributes (polled values s) !! ATTR_LOAD_POWER =
       Some (PyInt (load_power values)) ∧
     Climate.device_state_attributes (polled values s) !! ATTR_TEMPERATURE =
       Some (PyInt (target_temperature values)) ∧
     Climate.device_state_attributes (polled values s) !! ATTR_SWING_MODE =
       Some (PyStr (SwingMode_name (swing_mode values))) ∧
     Climate.device_state_attributes (polled values s) !! ATTR_FAN_SPEED =
       Some (PyStr (FanSpeed_name (fan_speed values))) ∧
     Climate.device_state_attributes (polled values s)
       !! ATTR_OPERATION_MODE =
       Some (PyStr (OperationMode_name (mode values))) ∧
     Climate.device_state_attributes (polled values s) !! ATTR_LED =
       Some (led values) ∧
     (∀ k, k ∉ ATTRIBUTE_KEYS →
        Climate.device_state_attributes (polled values s) !! k =
        Climate.device_state_attributes s !! k)) ∧
  (∀ e, read_all state = Raised e →
     let s' := exec (PollReading state) s in
     Climate.available s' = negb (is_DeviceException e) ∧
     Climate.is_on s' =
       match read_is_on state with
       | Returned is_on => Some is_on
       | Raised _ => Climate.is_on s
       end ∧
     Climate.current_operation s' = Climate.current_operation s ∧
     Climate.current_fan_mode s' = Climate.current_fan_mode s ∧
     Climate.current_swing_mode s' = Climate.current_swing_mode s ∧
     Climate.target_temperature s' = Climate.target_temperature s ∧
     Climate.current_temperature s' = Climate.current_temperature s ∧
     Climate.device_state_attributes s' = Climate.device_state_attributes s ∧
     _air_condition_model s' = _air_condition_model s ∧
     result_of (handle (PollReading state) s) =
       if is_DeviceException e then Returned () else Raised e).
Proof.
  split.
  - intros values Hr.
    assert (handle (PollReading state) s =
              handle (Poll (Returned values)) s) as Heq.
    { cbn [handle]. by apply async_update_reads. }
    split; [|split; [exact Heq|apply polled_mirrors]].
    rewrite Heq. cbn [handle]. apply async_update_success.
  - intros e Hr s'. subst s'. unfold exec. cbn [handle].
    rewrite (async_update_stopped state e) by done.
    unfold half_polled, Climate.available, Climate.is_on.
    by destruct (is_DeviceException e), (read_is_on state).
Qed.

(** X2: in every state the entity can reach, the attribute dictionary has
    exactly its seven keys: polls replace values and nothing adds or removes
    a key. *)
Theorem attribute_keys_invariant s :
  reachable s → dom (Climate.device_state_attributes s) = ATTRIBUTE_KEYS.
Proof.
  unfold Climate.device_state_attributes.
  assert (dom (_state_attrs init) = ATTRIBUTE_KEYS) as Hinit0.
  { unfold init, ATTRIBUTE_KEYS. cbn [_state_attrs].
    rewrite !dom_insert_L, dom_empty_L. set_solver. }
  induction 1 as [id current s t Hinit|ev s Hr IH].
  - pose proof (__init___shape id current) as Hs. rewrite Hinit in Hs.
    unfold state_of in Hs; simpl in Hs. by destruct Hs as [->|[x ->]].
  - pose proof (exec_shape ev s) as Hs.
    assert (∀ values, dom (_state_attrs (polled values s)) = ATTRIBUTE_KEYS)
      as Hpolled.
    { intros values. unfold polled. cbn [_state_attrs].
      rewrite dict_update_dom, IH. cbn [fmap list_fmap fst].
      unfold ATTRIBUTE_KEYS. set_solver. }
    destruct ev as [[state|e]| | |temperature operation_mode ?| | | | | |obj].
    1: { rewrite Hs. apply Hpolled. }
    10: { destruct Hs as [[values Hs]|[[a Hs]|(a & b & Hs)]]; rewrite Hs;
            [apply Hpolled|done..]. }
    all: use_shape Hs; try done.
    all: by destruct temperature, operation_mode.
Qed.

(** *** Which method writes which attribute *)

(** X3: only a sensor notification changes the current temperature, and it
    changes nothing else; only a successful poll changes the attribute
    dictionary or the model identifier; only a successful poll or
    [turn_on]/[turn_off] changes the on/off flag. *)
Theorem write_footprint ev s :
  (is_sensor ev = false →
     _current_temperature (exec ev s) = _current_temperature s) ∧
  (is_sensor ev = true →
     set_current_temperature (_current_temperature s) (exec ev s) = s) ∧
  (is_successful_poll ev = false →
     _state_attrs (exec ev s) = _state_attrs s ∧
     _air_condition_model (exec ev s) = _air_condition_model s) ∧
  (match ev with
   | Poll (Returned _) | PollReading _ | TurnOn _ | TurnOff _ => False
   | _ => True
   end → _state (exec ev s) = _state s).
Proof.
  pose proof (exec_shape ev s) as Hs.
  destruct ev as [[state|e]| | |temperature operation_mode ?| | | | | |obj];
    split_and!; try discriminate; try (intros []; fail); intros _;
    use_shape Hs; try done;
    try (by destruct temperature, operation_mode);
    by destruct s.
Qed.

(** What a push carries is what the entity holds when it is made. *)
Lemma pushed_arguments answer s model power operation_mode target fan_speed
    swing_mode led :
  Call (Device_send_configuration model power operation_mode target fan_speed
          swing_mode led) ∈ trace_of (_send_configuration answer s) →
  _air_condition_model s = Some model ∧
  (∃ is_on, _state s = Some is_on ∧ Power_call (Z.b2z is_on) = Some power) ∧
  _current_operation s ≫= OperationMode_getitem = Some operation_mode ∧
  target = _target_temperature s ∧
  _current_fan_mode s ≫= FanSpeed_getitem = Some fan_speed ∧
  _current_swing_mode s ≫= SwingMode_getitem = Some swing_mode ∧
  led = Led_Off.
Proof.
  intros Hin. destruct (_air_condition_model s) as [m|] eqn:Hm.
  2: { rewrite _send_configuration_unset in Hin by done.
       apply list_elem_of_singleton in Hin. discriminate. }
  destruct (bundle m s) as [c|e] eqn:Hb.
  2: { rewrite (_send_configuration_raises answer s m e) in Hin by done.
       by apply elem_of_nil in Hin. }
  destruct (_send_configuration_calls answer s m c Hm Hb) as [_ Ht].
  rewrite Ht in Hin.
  assert (c = Device_send_configuration model power operation_mode target
                fan_speed swing_mode led) as ->.
  { destruct (_try_command_trace MASK_CONFIGURATION c answer s)
      as [Hc|[Hc|Hc]]; rewrite Hc in Hin;
      repeat (apply elem_of_cons in Hin as [Hin|Hin]; simplify_eq);
      try (by apply elem_of_nil in Hin); done. }
  clear Hin Ht. unfold bundle, int_call, Power_of, getitem in Hb.
  destruct (_state s) as [on|]; [|done].
  destruct (Power_call (Z.b2z on)) as [p|] eqn:Hp; [|done].
  destruct (_current_operation s) as [op|]; [|done]. simpl.
  destruct (OperationMode_getitem op) as [om|]; [|done].
  destruct (_current_fan_mode s) as [fm|]; [|done]. simpl.
  destruct (FanSpeed_getitem fm) as [fs|]; [|done].
  destruct (_current_swing_mode s) as [sm|]; [|done]. simpl.
  destruct (SwingMode_getitem sm) as [sw|]; [|done].
  simplify_eq. split_and!; eauto.
Qed.

(** X4: a setter assigns the attribute it is named after and then pushes:
    the method is the configuration push run on the entity that holds the
    new value, so a push that reaches the device carries the member of the
    new name, or the new temperature.  The assignment stays whatever becomes
    of the push: the device may acknowledge, refuse or time out, the model
    may be unknown, an argument of the push may fail to evaluate.
    [set_temperature] assigns the temperature and the operation mode it is
    given and keeps the ones it is not given; it compares the temperature
    with no bound. *)
Theorem setters_assign_before_push s answer :
  (∀ fan, _current_fan_mode (exec (SetFanMode fan answer) s) = Some fan) ∧
  (∀ swing_mode,
     _current_swing_mode (exec (SetSwingMode swing_mode answer) s) =
       Some swing_mode) ∧
  (∀ operation_mode,
     _current_operation (exec (SetOperationMode operation_mode answer) s) =
       Some operation_mode) ∧
  (∀ temperature operation_mode,
     _target_temperature
       (exec (SetTemperature temperature operation_mode answer) s) =
       match temperature with
       | Some t => Some t
       | None => _target_temperature s
       end ∧
     _current_operation
       (exec (SetTemperature temperature operation_mode answer) s) =
       match operation_mode with
       | Some m => Some m
       | None => _current_operation s
       end) ∧
  (∀ fan,
     handle (SetFanMode fan answer) s =
       _send_configuration answer (set_current_fan_mode (Some fan) s)) ∧
  (∀ swing_mode,
     handle (SetSwingMode swing_mode answer) s =
       _send_configuration answer
         (set_current_swing_mode (Some swing_mode) s)) ∧
  (∀ operation_mode,
     handle (SetOperationMode operation_mode answer) s =
       _send_configuration answer
         (set_current_operation (Some operation_mode) s)) ∧
  (∀ temperature operation_mode,
     handle (SetTemperature temperature operation_mode answer) s =
       _send_configuration answer
         (with_temperature temperature operation_mode s)) ∧
  (∀ fan model power om target fs sm led,
     Call (Device_send_configuration model power om target fs sm led) ∈
       trace_of (handle (SetFanMode fan answer) s) →
     FanSpeed_getitem fan = Some fs) ∧
  (∀ swing_mode model power om target fs sm led,
     Call (Device_send_configuration model power om target fs sm led) ∈
       trace_of (handle (SetSwingMode swing_mode answer) s) →
     SwingMode_getitem swing_mode = Some sm) ∧
  (∀ operation_mode model power om target fs sm led,
     Call (Device_send_configuration model power om target fs sm led) ∈
       trace_of (handle (SetOperationMode operation_mode answer) s) →
     OperationMode_getitem operation_mode = Some om) ∧
  (∀ temperature operation_mode model power om target fs sm led,
     Call (Device_send_configuration model power om target fs sm led) ∈
       trace_of (handle (SetTemperature temperature operation_mode answer) s)
     →
     (∀ t, temperature = Some t → target = Some t) ∧
     (∀ m, operation_mode = Some m → OperationMode_getitem m = Some om)).
Proof.
  split_and!.
  - intros fan. pose proof (exec_shape (SetFanMode fan answer) s) as Hs.
    by use_shape Hs.
  - intros sm. pose proof (exec_shape (SetSwingMode sm answer) s) as Hs.
    by use_shape Hs.
  - intros om. pose proof (exec_shape (SetOperationMode om answer) s) as Hs.
    by use_shape Hs.
  - intros temperature operation_mode.
    pose proof (exec_shape (SetTemperature temperature operation_mode answer)
                  s) as Hs.
    use_shape Hs; by destruct temperature, operation_mode.
  - intros fan. apply async_set_fan_mode_unfold.
  - intros sm. apply async_set_swing_mode_unfold.
  - intros om. apply async_set_operation_mode_unfold.
  - intros temperature operation_mode. apply async_set_temperature_unfold.
  - intros fan model power om target fs sm led Hin. cbn [handle] in Hin.
    rewrite async_set_fan_mode_unfold in Hin.
    by apply pushed_arguments in Hin as (_ & _ & _ & _ & Hfan & _).
  - intros swing model power om target fs sm led Hin. cbn [handle] in Hin.
    rewrite async_set_swing_mode_unfold in Hin.
    by apply pushed_arguments in Hin as (_ & _ & _ & _ & _ & Hswing & _).
  - intros op model power om target fs sm led Hin. cbn [handle] in Hin.
    rewrite async_set_operation_mode_unfold in Hin.
    by apply pushed_arguments in Hin as (_ & _ & Hop & _).
  - intros temperature operation_mode model power om target fs sm led Hin.
    cbn [handle] in Hin. rewrite async_set_temperature_unfold in Hin.
    apply pushed_arguments in Hin as (_ & _ & Hop & Htarget & _).
    split.
    + intros t ->. rewrite Htarget. by destruct operation_mode.
    + intros m ->. by destruct temperature.
Qed.

(** *** What a method raises and how often it calls the device *)

Lemma _send_configuration_full answer s model c :
  _air_condition_model s = Some model →
  bundle model s = Returned c →
  _send_configuration answer s =
    (state_of (_try_command MASK_CONFIGURATION c answer s),
     trace_of (_try_command MASK_CONFIGURATION c answer s),
     match result_of (_try_command MASK_CONFIGURATION c answer s) with
     | Returned _ => Returned ()
     | Raised e => Raised e
     end).
Proof.
  intros Hm Hb. unfold bundle in Hb.
  destruct (int_call _) as [n|] eqn:E1; [|done].
  destruct (Power_of _) as [power|] eqn:E2; [|done].
  destruct (getitem OperationMode_getitem _) as [om|] eqn:E3; [|done].
  destruct (getitem FanSpeed_getitem _) as [fs|] eqn:E4; [|done].
  destruct (getitem SwingMode_getitem _) as [sm|] eqn:E5; [|done].
  simplify_eq.
  unfold _send_configuration, bind, get, lift, MASK_CONFIGURATION.
  rewrite Hm, E1, E2, E3, E4, E5.
  destruct (_try_command _ _ _ _) as [[s' t] [b|e]];
    unfold state_of, trace_of, result_of, ret; simpl; by rewrite ?app_nil_r.
Qed.

Lemma _try_command_raises mask_error func answer s e :
  result_of (_try_command mask_error func answer s) = Raised e →
  is_DeviceException e = false.
Proof.
  destruct answer as [ack|e0].
  - by rewrite _try_command_acknowledged.
  - destruct (is_DeviceException e0) eqn:He.
    + destruct e0; try discriminate He.
      by rewrite _try_command_transport_failure.
    + rewrite _try_command_other_exception by done.
      unfold result_of; simpl. congruence.
Qed.

Lemma _send_configuration_raises_not_transport answer s e :
  result_of (_send_configuration answer s) = Raised e →
  is_DeviceException e = false.
Proof.
  destruct (_air_condition_model s) as [model|] eqn:Hm.
  - destruct (bundle model s) as [c|e0] eqn:Hb.
    + rewrite (_send_configuration_full answer s model c) by done.
      unfold result_of at 1; simpl.
      destruct (result_of (_try_command _ _ _ _)) as [b|e1] eqn:Hr; [done|].
      intros [= ->]. by eapply _try_command_raises.
    + rewrite (_send_configuration_raises answer s model e0) by done.
      unfold result_of; simpl. intros [= ->]. by eapply bundle_raises.
  - by rewrite _send_configuration_unset.
Qed.

(** X5: no poll and no command lets the transport exception out: whatever
    a method that talks to the device raises is not a [DeviceException].
    What can come out is an exception of the argument list of the push or
    one of another class that the device call itself raised. *)
Theorem no_transport_exception_escapes ev s e :
  is_sensor ev = false →
  result_of (handle ev s) = Raised e →
  is_DeviceException e = false.
Proof.
  destruct ev as [[state|e0]|answer|answer|temperature operation_mode answer
                 |swing_mode answer|fan answer|operation_mode answer
                 |entity_id old_state new_state|command answer|obj];
    try discriminate; intros _; simpl.
  - by rewrite async_update_success.
  - destruct (is_DeviceException e0) eqn:He.
    + destruct e0; try discriminate He.
      by rewrite async_update_transport_failure.
    + rewrite async_update_other_exception by done.
      unfold result_of; simpl. congruence.
  - unfold async_turn_on, bind.
    pose proof (_try_command_raises "Turning the miio device on failed."
                  Device_on answer s) as Hr.
    destruct (_try_command _ _ _ _) as [[s' t] [[]|e1]]; try done.
    unfold result_of in *; simpl in *. intros [= ->]. by apply Hr.
  - unfold async_turn_off, bind.
    pose proof (_try_command_raises "Turning the miio device off failed."
                  Device_off answer s) as Hr.
    destruct (_try_command _ _ _ _) as [[s' t] [[]|e1]]; try done.
    unfold result_of in *; simpl in *. intros [= ->]. by apply Hr.
  - rewrite async_set_temperature_unfold.
    apply _send_configuration_raises_not_transport.
  - rewrite async_set_swing_mode_unfold.
    apply _send_configuration_raises_not_transport.
  - rewrite async_set_fan_mode_unfold.
    apply _send_configuration_raises_not_transport.
  - rewrite async_set_operation_mode_unfold.
    apply _send_configuration_raises_not_transport.
  - unfold _send_custom_command.
    destruct (String.eqb _ _); unfold bind, ret;
      match goal with
      | |- context [_try_command ?m ?c ?a ?s] =>
          pose proof (_try_command_raises m c a s) as Hr;
          destruct (_try_command m c a s) as [[s' t] [b|e1]]; try done;
          unfold result_of in *; simpl in *; intros [= ->]; by apply Hr
      end.
  - destruct (read_all obj) as [values|e1] eqn:Hr.
    + rewrite (async_update_reads obj values) by done.
      by rewrite async_update_success.
    + rewrite (async_update_stopped obj e1) by done.
      destruct (is_DeviceException e1) eqn:He; [done|].
      unfold result_of; simpl. congruence.
Qed.

Lemma calls_try_command mask_error func answer s :
  calls (trace_of (_try_command mask_error func answer s)) = [func].
Proof.
  by destruct (_try_command_trace mask_error func answer s) as [->|[->| ->]].
Qed.

Lemma trace_then_ret {A} (m : M A) s :
  trace_of ((m ;;; ret ())%py s) = trace_of (m s).
Proof.
  unfold bind, ret. destruct (m s) as [[s' t] [a|e]];
    unfold trace_of; simpl; by rewrite ?app_nil_r.
Qed.

Lemma calls_send_configuration answer s :
  calls (trace_of (_send_configuration answer s)) = [] ∨
  ∃ c, is_push (Call c) = true ∧
       calls (trace_of (_send_configuration answer s)) = [c].
Proof.
  destruct (_air_condition_model s) as [model|] eqn:Hm.
  - destruct (bundle model s) as [c|e0] eqn:Hb.
    + right. exists c. split.
      * by destruct (bundle_returns model s c Hb) as (?&?&?&?&->).
      * destruct (_send_configuration_calls answer s model c Hm Hb)
          as [_ ->]. apply calls_try_command.
    + left. by rewrite (_send_configuration_raises answer s model e0).
  - left. by rewrite _send_configuration_unset.
Qed.

(** X6: a method calls the device at most once, with no retry: a poll makes
    the one status call, [turn_on] and [turn_off] their one call, the raw
    sender one of its two, a setter one configuration push or none, and a
    sensor notification none. *)
Theorem one_device_call_at_most ev s :
  (length (calls (trace_of (handle ev s))) ≤ 1)%nat ∧
  match ev with
  | Poll _ | PollReading _ =>
      calls (trace_of (handle ev s)) = [Device_status]
  | TurnOn _ => calls (trace_of (handle ev s)) = [Device_on]
  | TurnOff _ => calls (trace_of (handle ev s)) = [Device_off]
  | SensorChanged _ _ _ => calls (trace_of (handle ev s)) = []
  | SendCustomCommand command _ =>
      calls (trace_of (handle ev s)) = [Device_send_command command] ∨
      calls (trace_of (handle ev s)) = [Device_send_ir_code command]
  | _ => Forall (λ c, is_push (Call c) = true) (calls (trace_of (handle ev s)))
  end.
Proof.
  assert (∀ answer s1,
    (length (calls (trace_of (_send_configuration answer s1))) ≤ 1)%nat ∧
    Forall (λ c, is_push (Call c) = true)
      (calls (trace_of (_send_configuration answer s1)))) as Hpush.
  { intros answer s1.
    destruct (calls_send_configuration answer s1) as [->|(c & Hc & ->)];
      split; simpl; try lia; by repeat constructor. }
  destruct ev as [[state|e0]|answer|answer|temperature operation_mode answer
                 |swing_mode answer|fan answer|operation_mode answer
                 |entity_id old_state new_state|command answer|obj]; simpl.
  - by rewrite async_update_success.
  - destruct (is_DeviceException e0) eqn:He.
    + destruct e0; try discriminate He.
      by rewrite async_update_transport_failure.
    + by rewrite async_update_other_exception.
  - assert (trace_of (async_turn_on answer s) =
            trace_of (_try_command "Turning the miio device on failed."
                        Device_on answer s)) as ->.
    { unfold async_turn_on, bind.
      destruct (_try_command _ _ _ _) as [[s' t] [[]|e1]];
        unfold trace_of; simpl; by rewrite ?app_nil_r. }
    by rewrite calls_try_command.
  - assert (trace_of (async_turn_off answer s) =
            trace_of (_try_command "Turning the miio device off failed."
                        Device_off answer s)) as ->.
    { unfold async_turn_off, bind.
      destruct (_try_command _ _ _ _) as [[s' t] [[]|e1]];
        unfold trace_of; simpl; by rewrite ?app_nil_r. }
    by rewrite calls_try_command.
  - rewrite async_set_temperature_unfold. apply Hpush.
  - rewrite async_set_swing_mode_unfold. apply Hpush.
  - rewrite async_set_fan_mode_unfold. apply Hpush.
  - rewrite async_set_operation_mode_unfold. apply Hpush.
  - run_method. destruct new_state as [[[value|] attrs]|]; simpl;
      try by auto.
    destruct (String.eqb value "unknown"); [by auto|].
    destruct (float_call value) as [x|e]; simpl.
    + destruct (units_temperature x _) as [t|e]; simpl; [by auto|].
      destruct (is_ValueError e); by auto.
    + destruct (is_ValueError e); by auto.
  - unfold _send_custom_command.
    destruct (String.eqb _ _); rewrite trace_then_ret, calls_try_command;
      simpl; auto.
  - by destruct (async_update_trace obj s) as [->| ->].
Qed.

(** *** The sensor listener beside polls and commands *)






(** X8: a sensor value that [float] reads is converted from the unit the
    sensor state carries ([None] when it carries none) by the host's unit
    system, and the converted value is stored; when the conversion raises
    [ValueError], as for a unit it does not know, the error is logged once
    and nothing changes. *)
Theorem sensor_value_converted s entity_id old_state new_state value x :
  sensor_state new_state = Some value → value ≠ "unknown" →
  float_call value = Returned x →
  let unit := sensor_attributes new_state !! ATTR_UNIT_OF_MEASUREMENT in
  (∀ t, units_temperature x unit = Returned t →
     handle (SensorChanged entity_id old_state (Some new_state)) s =
       (set_current_temperature (Some t) s, [], Returned ())) ∧
  (units_temperature x unit = Raised ValueError →
     handle (SensorChanged entity_id old_state (Some new_state)) s =
       (s, [LogError "Unable to update from sensor: %s"], Returned ())).
Proof.
  intros Hv Hne Hx unit. apply String.eqb_neq in Hne.
  split; [intros t Hu|intros Hu]; simpl; unfold _async_update_temp;
    rewrite Hv, Hne; unfold try_except, bind, lift, modify;
    rewrite Hx; fold unit; by rewrite Hu.
Qed.

(** *** Construction *)

(** X9: the constructor leaves the entity unavailable with every cached
    attribute unset and the seven dictionary entries [None]; at most the
    current temperature is set.  Without a sensor entity id or without a
    known sensor state it does nothing more; with both, the eager update is
    what a notification with that state does to the fresh entity. *)
Theorem constructed_entity sensor_entity_id current :
  set_current_temperature None (state_of (__init__ sensor_entity_id current))
    = init ∧
  (let s := state_of (__init__ sensor_entity_id current) in
   Climate.available s = false ∧ Climate.is_on s = None ∧
   Climate.current_operation s = None ∧ Climate.current_fan_mode s = None ∧
   Climate.current_swing_mode s = None ∧
   Climate.target_temperature s = None ∧
   (∀ k, k ∈ ATTRIBUTE_KEYS →
      Climate.device_state_attributes s !! k = Some PyNone)) ∧
  (sensor_entity_id = "" ∨ current = None →
     __init__ sensor_entity_id current = (init, [], Returned ())) ∧
  (∀ sensor, sensor_entity_id ≠ "" → current = Some sensor →
     __init__ sensor_entity_id current =
       handle (SensorChanged sensor_entity_id None (Some sensor)) init).
Proof.
  assert (∀ k, k ∈ ATTRIBUTE_KEYS → _state_attrs init !! k = Some PyNone)
    as Hkeys.
  { intros k Hk. unfold ATTRIBUTE_KEYS in Hk. unfold init.
    cbn [_state_attrs].
    repeat (apply elem_of_union in Hk as [Hk|Hk]);
      apply elem_of_singleton in Hk; subst k;
      repeat (first [apply lookup_insert_eq
                    |rewrite lookup_insert_ne by discriminate]). }
  split_and!.
  - by destruct (__init___shape sensor_entity_id current) as [->|[x ->]].
  - by destruct (__init___shape sensor_entity_id current) as [->|[x ->]].
  - unfold __init__. intros [->| ->]; [done|].
    by destruct (String.eqb sensor_entity_id "").
  - intros sensor Hid ->. unfold __init__.
    apply String.eqb_neq in Hid. by rewrite Hid.
Qed.

(** *** Polls after commands *)

Lemma polled_twice state s : polled state (polled state s) = polled state s.
Proof.
  unfold polled.
  cbn [_state_attrs _current_temperature _air_condition_model].
  f_equal.
  - apply map_eq. intros k. unfold dict_update. cbn [foldl fst snd].
    rewrite !lookup_insert. by repeat case_decide.
  - by destruct (_air_condition_model s).
Qed.

Lemma exec_poll state s : exec (Poll (Returned state)) s = polled state s.
Proof. unfold exec, handle. by rewrite async_update_success. Qed.

Lemma exec_poll_reading state values s :
  read_all state = Returned values →
  exec (PollReading state) s = polled values s.
Proof.
  intros Hr. unfold exec. cbn [handle].
  rewrite (async_update_reads state values) by done.
  by rewrite async_update_success.
Qed.

(** X10: a poll that runs to its end, that is, whose status call returned
    and whose every property read returned, wipes out what a command or a
    failed poll did since the state before it: handled after any event that
    is neither a sensor notification nor a poll whose status call returned,
    it leaves the entity as if that event had not happened.  A mode or
    temperature set locally, pushed or not, is replaced by what the device
    reports. *)
Theorem successful_poll_overrides ev state values s :
  is_sensor ev = false → is_successful_poll ev = false →
  read_all state = Returned values →
  exec (PollReading state) (exec ev s) = exec (PollReading state) s.
Proof.
  intros Hsensor Hpoll Hr. rewrite !(exec_poll_reading state values) by done.
  pose proof (exec_shape ev s) as Hs.
  destruct ev as [[st|e]| | |temperature operation_mode ?| | | | | |obj];
    try discriminate; destruct s; use_shape Hs; try done.
  all: by destruct temperature, operation_mode.
Qed.

(** X11: polling is idempotent: a second successful poll that reports the
    same status leaves the entity as the first one left it. *)
Theorem poll_idempotent state s :
  exec (Poll (Returned state)) (exec (Poll (Returned state)) s) =
  exec (Poll (Returned state)) s.
Proof. rewrite !exec_poll. apply polled_twice. Qed.


(** *** The lists of modes *)

Lemma push_after_poll_calls state s s1 answer operation_mode fan swing
    om fm sm :
  _state s1 = Some (is_on state) →
  _air_condition_model s1 = _air_condition_model (polled state s) →
  _current_operation s1 = Some operation_mode →
  _current_fan_mode s1 = Some fan →
  _current_swing_mode s1 = Some swing →
  OperationMode_getitem operation_mode = Some om →
  FanSpeed_getitem fan = Some fm →
  SwingMode_getitem swing = Some sm →
  ∃ power model,
    Power_call (Z.b2z (is_on state)) = Some power ∧
    _air_condition_model (polled state s) = Some model ∧
    calls (trace_of (_send_configuration answer s1)) =
      [Device_send_configuration model power om (_target_temperature s1) fm
         sm Led_Off].
Proof.
  intros Hst Hm Hom Hfm Hsm Hgo Hgf Hgs.
  destruct (Power_call_bool (is_on state)) as [power Hp].
  assert (∃ model, _air_condition_model (polled state s) = Some model)
    as [model Hmodel].
  { unfold polled; simpl. destruct (_air_condition_model s); eauto. }
  exists power, model. split_and!; [done..|].
  rewrite Hmodel in Hm.
  assert (bundle model s1 =
            Returned (Device_send_configuration model power om
                        (_target_temperature s1) fm sm Led_Off)) as Hb.
  { unfold bundle, int_call, Power_of, getitem.
    by rewrite Hst, Hp, Hom, Hfm, Hsm, Hgo, Hgf, Hgs. }
  destruct (_send_configuration_calls answer s1 model _ Hm Hb) as [_ ->].
  apply calls_try_command.
Qed.

(** X13: every name in the lists of operation, fan and swing modes is
    accepted by its setter: right after a poll that ran to its end (the
    status call and every property read returned), setting a listed name
    makes exactly one configuration push, which carries the member of that
    name together with the polled on/off flag, target temperature and other
    two modes, the latched model and [Led.Off]. *)
Theorem listed_mode_is_pushed state values s answer :
  read_all state = Returned values →
  (∀ members name, name ∈ Climate.operation_list members →
     ∃ m power model,
       m ∈ members ∧ OperationMode_name m = name ∧
       Power_call (Z.b2z (is_on values)) = Some power ∧
       _air_condition_model (exec (PollReading state) s) = Some model ∧
       calls (trace_of (handle (SetOperationMode name answer)
                          (exec (PollReading state) s))) =
         [Device_send_configuration model power m
            (Some (Int (target_temperature values))) (fan_speed values)
            (swing_mode values) Led_Off]) ∧
  (∀ members name, name ∈ Climate.fan_list members →
     ∃ m power model,
       m ∈ members ∧ FanSpeed_name m = name ∧
       Power_call (Z.b2z (is_on values)) = Some power ∧
       _air_condition_model (exec (PollReading state) s) = Some model ∧
       calls (trace_of (handle (SetFanMode name answer)
                          (exec (PollReading state) s))) =
         [Device_send_configuration model power (mode values)
            (Some (Int (target_temperature values))) m (swing_mode values)
            Led_Off]) ∧
  (∀ members name, name ∈ Climate.swing_list members →
     ∃ m power model,
       m ∈ members ∧ SwingMode_name m = name ∧
       Power_call (Z.b2z (is_on values)) = Some power ∧
       _air_condition_model (exec (PollReading state) s) = Some model ∧
       calls (trace_of (handle (SetSwingMode name answer)
                          (exec (PollReading state) s))) =
         [Device_send_configuration model power (mode values)
            (Some (Int (target_temperature values))) (fan_speed values) m
            Led_Off]).
Proof.
  intros Hr. rewrite !(exec_poll_reading state values) by done.
  split_and!; intros members name Hin;
    apply list_elem_of_fmap in Hin as (m & -> & Hm).
  - edestruct (push_after_poll_calls values s
                 (set_current_operation (Some (OperationMode_name m))
                    (polled values s)) answer)
      as (power & model & Hp & Hmodel & Hcalls);
      [reflexivity..|apply OperationMode_getitem_name
      |apply FanSpeed_getitem_name|apply SwingMode_getitem_name|].
    exists m, power, model. simpl.
    by rewrite async_set_operation_mode_unfold.
  - edestruct (push_after_poll_calls values s
                 (set_current_fan_mode (Some (FanSpeed_name m))
                    (polled values s)) answer)
      as (power & model & Hp & Hmodel & Hcalls);
      [reflexivity..|apply OperationMode_getitem_name
      |apply FanSpeed_getitem_name|apply SwingMode_getitem_name|].
    exists m, power, model. simpl.
    by rewrite async_set_fan_mode_unfold.
  - edestruct (push_after_poll_calls values s
                 (set_current_swing_mode (Some (SwingMode_name m))
                    (polled values s)) answer)
      as (power & model & Hp & Hmodel & Hcalls);
      [reflexivity..|apply OperationMode_getitem_name
      |apply FanSpeed_getitem_name|apply SwingMode_getitem_name|].
    exists m, power, model. simpl.
    by rewrite async_set_swing_mode_unfold.
Qed.

(** *** Setting the platform up *)



(** *** Known stays known *)

(** X15: no method unsets an attribute: once the on/off flag, a mode, the
    target temperature, the model or the current temperature has a value,
    it has one after every history (not always the same, the model
    apart). *)
Theorem known_stays_known evs s :
  (is_Some (Climate.is_on s) → is_Some (Climate.is_on (run evs s))) ∧
  (is_Some (Climate.current_operation s) →
     is_Some (Climate.current_operation (run evs s))) ∧
  (is_Some (Climate.current_fan_mode s) →
     is_Some (Climate.current_fan_mode (run evs s))) ∧
  (is_Some (Climate.current_swing_mode s) →
     is_Some (Climate.current_swing_mode (run evs s))) ∧
  (is_Some (Climate.target_temperature s) →
     is_Some (Climate.target_temperature (run evs s))) ∧
  (is_Some (Climate.current_temperature s) →
     is_Some (Climate.current_temperature (run evs s))) ∧
  (is_Some (_air_condition_model s) →
     _air_condition_model (run evs s) = _air_condition_model s).
Proof.
  unfold Climate.is_on, Climate.current_operation, Climate.current_fan_mode,
    Climate.current_swing_mode, Climate.target_temperature,
    Climate.current_temperature.
  revert s. induction evs as [|ev evs IH]; intros s; [by split_and!|].
  rewrite run_cons.
  destruct (IH (exec ev s)) as (H1 & H2 & H3 & H4 & H5 & H6 & H7).
  pose proof (exec_shape ev s) as Hs.
  split_and!; intros Hk.
  1-6: (first [apply H1|apply H2|apply H3|apply H4|apply H5|apply H6];
        destruct ev as [[state|e]| | |temperature operation_mode ?| | | | | |obj];
        use_shape Hs; try done;
        by destruct temperature, operation_mode).
  destruct Hk as [model Hm].
  rewrite H7; rewrite (model_kept ev s model Hm); [by rewrite Hm|done].
Qed.

End Properties.

(** ** The properties on the concrete household *)

Section Household.
Import PythonMiio MetricHost Scenario.

Lemma latched_reachable : reachable latched.
Proof.
  apply reachable_step. by apply (reachable_init "sensor.room" None init []).
Qed.

(** C2, run: a failed poll, the poll that reports X, then polls that report
    Y and the empty string among other events. *)
Lemma first_poll_latches_model_witness :
  _air_condition_model
    (exec (Poll (Returned (status_of "X"))) (run [Poll (Raised TIMEOUT)] init))
    = Some "X" ∧
  _air_condition_model
    (run ([Poll (Raised TIMEOUT)] ++ Poll (Returned (status_of "X")) ::
          [Poll (Returned (status_of "Y")); TurnOff OK;
           Poll (Returned (status_of "")); Poll (Raised TIMEOUT)]) init)
    = Some "X".
Proof.
  apply (first_poll_latches_model init [Poll (Raised TIMEOUT)]
           (status_of "X")); reflexivity.
Defined.

(** C3, as stated, fails: with model X latched and the fan mode set to a
    name that is no member of [FanSpeed], the model is set and the push makes
    no device call; the lookup raises [KeyError]. *)
Lemma push_skipped_with_model_set :
  _air_condition_model (exec (SetFanMode "Turbo" OK) latched) = Some "X" ∧
  count is_push (trace_of (handle (SetFanMode "Turbo" OK) latched)) = 0%nat ∧
  result_of (handle (SetFanMode "Turbo" OK) latched) =
    Raised (KeyError (Some "Turbo")) ∧
  _send_configuration OK (exec (SetFanMode "Turbo" OK) latched) =
    (exec (SetFanMode "Turbo" OK) latched, [],
     Raised (KeyError (Some "Turbo"))).
Proof. split_and!; reflexivity. Defined.

(** C3 (amended), run: no model yet, each setter logs and calls nothing;
    with model X latched and member names, one push. *)
Lemma push_iff_model_and_bundle_witness :
  (count is_call (trace_of (handle (SetFanMode "High" OK) init)) = 0%nat ∧
   count is_error (trace_of (handle (SetFanMode "High" OK) init)) = 1%nat ∧
   result_of (handle (SetFanMode "High" OK) init) = Returned ()) ∧
  count is_push (trace_of (_send_configuration OK latched)) = 1%nat ∧
  _send_configuration OK (set_current_fan_mode (Some "Turbo") latched) =
    (set_current_fan_mode (Some "Turbo") latched, [],
     Raised (KeyError (Some "Turbo"))).
Proof.
  split; [|split].
  - destruct (push_iff_model_and_bundle init OK) as (_ & _ & Hunset & _).
    apply Hunset; reflexivity.
  - apply (proj1 (push_iff_model_and_bundle latched OK)).
    repeat split; by eexists.
  - destruct (push_iff_model_and_bundle
                (set_current_fan_mode (Some "Turbo") latched) OK)
      as (_ & _ & _ & _ & Hname).
    destruct (Hname "X" true Power_On) as (_ & Hfan & _);
      [reflexivity..|].
    apply Hfan; [by eexists|reflexivity..].
Defined.



(** C5, run: no state, the sentinel, 21.5 in the host's unit, and abc. *)
Lemma sensor_update_witness :
  exec (SensorChanged "sensor.room" None (Some (reading None))) latched =
    latched ∧
  exec (SensorChanged "sensor.room" None (Some (reading (Some "unknown"))))
    latched = latched ∧
  _current_temperature
    (exec (SensorChanged "sensor.room" None (Some (reading (Some "21.5"))))
       latched) = Some (43 # 2)%Q ∧
  handle (SensorChanged "sensor.room" (Some (reading (Some "21.5")))
            (Some (reading (Some "abc"))))
    warm =
    (warm, [LogError "Unable to update from sensor: %s"], Returned ()).
Proof.
  destruct (sensor_update latched "sensor.room" None) as (_ & Hno & Hok & _).
  destruct (sensor_update warm "sensor.room" (Some (reading (Some "21.5"))))
    as (_ & _ & _ & Hbad).
  split_and!.
  - unfold exec. rewrite (Hno (reading None)); [reflexivity|].
    left; reflexivity.
  - unfold exec. rewrite (Hno (reading (Some "unknown"))); [reflexivity|].
    right; reflexivity.
  - unfold exec.
    rewrite (Hok (reading (Some "21.5")) "21.5" (43 # 2)%Q);
      [reflexivity|reflexivity|discriminate|reflexivity|reflexivity].
  - apply (Hbad (reading (Some "abc")) "abc");
      [reflexivity|discriminate|reflexivity].
Defined.

(** C6, run: on, then an off that times out, then an off that is refused. *)
Lemma turn_on_off_only_on_success_witness :
  _state (exec (TurnOn OK) init) = Some true ∧
  _state (exec (TurnOff (Raised TIMEOUT)) (exec (TurnOn OK) init)) =
    Some true ∧
  _state (exec (TurnOff REFUSED) latched) = _state latched.
Proof.
  split_and!.
  - apply (proj1 (turn_on_off_only_on_success init OK)). reflexivity.
  - apply (proj2 (proj2 (turn_on_off_only_on_success init OK))).
  - apply (proj1 (proj2 (turn_on_off_only_on_success latched REFUSED))).
    discriminate.
Defined.

(** C7, run: the success token, another acknowledgement, a time-out. *)
Lemma try_command_success_iff_witness :
  result_of (_try_command "failed" Device_on OK latched) = Returned true ∧
  result_of (_try_command "failed" Device_on REFUSED latched) =
    Returned false ∧
  _try_command "failed" Device_on (Raised TIMEOUT) latched =
    (set_available false latched, [Call Device_on; LogError "failed"],
     Returned false).
Proof.
  split_and!.
  - apply (proj1 (try_command_success_iff "failed" Device_on OK latched)).
    reflexivity.
  - apply (proj1 (proj2 (try_command_success_iff "failed" Device_on REFUSED
                           latched)) (PyList ["error"]));
      [reflexivity|discriminate].
  - apply (proj2 (proj2 (try_command_success_iff "failed" Device_on
                           (Raised TIMEOUT) latched)) "timed out").
    reflexivity.
Defined.

(** C8, run: a native command, a learned code, and a one-character
    command. *)
Lemma raw_command_dispatch_witness :
  calls (trace_of (_send_custom_command "0123" OK latched)) =
    [Device_send_command "0123"] ∧
  calls (trace_of (_send_custom_command "FEabcd" OK latched)) =
    [Device_send_ir_code "FEabcd"] ∧
  calls (trace_of (_send_custom_command "0" OK latched)) =
    [Device_send_ir_code "0"].
Proof.
  split_and!.
  - apply (proj1 (raw_command_dispatch "0123" OK latched)). reflexivity.
  - apply (proj2 (raw_command_dispatch "FEabcd" OK latched)). discriminate.
  - apply (proj2 (raw_command_dispatch "0" OK latched)). discriminate.
Defined.

(** C10, run: after the first successful poll and a change of fan mode. *)
Lemma model_set_implies_bundle_set_witness :
  bundle_set (exec (SetFanMode "High" OK) latched) ∧
  result_of (_send_configuration OK (exec (SetFanMode "High" OK) latched)) ≠
    Raised TypeError.
Proof.
  destruct (model_set_implies_bundle_set
              (exec (SetFanMode "High" OK) latched) "X") as (Hset & Hty & _).
  - apply reachable_step, latched_reachable.
  - reflexivity.
  - split; [exact Hset|]. apply (Hty SUCCESS).
Defined.

(** The push that follows a poll and a change of fan mode: all seven
    arguments, the new fan mode among the polled values. *)
Example push_after_poll :
  trace_of (handle (SetFanMode "High" OK) latched) =
    [Call (Device_send_configuration "X" Power_On Mode_Cool (Some (Int 25))
             Fan_High Swing_Off Led_Off_);
     LogDebug "Response received: %s"].
Proof. reflexivity. Qed.

(** A model reported as the empty string is latched like any other and
    lets the push through: the guard tests for [None] alone. *)
Example push_with_empty_model :
  calls (trace_of (handle (SetFanMode "High" OK)
                     (exec (Poll (Returned (status_of ""))) init))) =
    [Device_send_configuration "" Power_On Mode_Cool (Some (Int 25))
       Fan_High Swing_Off Led_Off_].
Proof. reflexivity. Qed.

(** The dictionary of attributes follows every poll, the latch does not. *)
Example attributes_follow_polls :
  let s := exec (Poll (Returned (status_of "Y"))) latched in
  _state_attrs s !! ATTR_AIR_CONDITION_MODEL = Some (PyStr "Y") ∧
  _air_condition_model s = Some "X".
Proof. split; reflexivity. Qed.

End Household.

(** ** The further properties on the concrete installation *)

Section Installed.
Import PythonMiio MetricHost Scenario Installation.

(** X2, run. *)
Lemma attribute_keys_invariant_witness :
  dom (Climate.device_state_attributes
         (exec (SetFanMode "High" OK) latched)) = ATTRIBUTE_KEYS.
Proof.
  apply attribute_keys_invariant. apply reachable_step, latched_reachable.
Defined.

(** X3, run: a setter on the latched entity. *)
Lemma write_footprint_witness :
  _current_temperature (exec (SetFanMode "High" OK) warm) =
    _current_temperature warm ∧
  _state_attrs (exec (SetFanMode "High" OK) warm) = _state_attrs warm ∧
  _air_condition_model (exec (SetFanMode "High" OK) warm) =
    _air_condition_model warm.
Proof.
  destruct (write_footprint (SetFanMode "High" OK) warm)
    as (Htemp & _ & Hpoll & _).
  split; [apply Htemp; reflexivity|apply Hpoll; reflexivity].
Defined.

(** X5, run: the one exception that leaves [set_fan_mode] with a name that
    is no member. *)
Lemma no_transport_exception_escapes_witness :
  is_DeviceException (KeyError (Some "Turbo")) = false.
Proof.
  apply (no_transport_exception_escapes (SetFanMode "Turbo" OK) latched);
    reflexivity.
Defined.


(** X8, run: 50 degrees Fahrenheit are stored as 10 and 32 as 0; a
    reading in a unit the host does not know, or with no unit, is logged and
    dropped. *)
Lemma sensor_value_converted_witness :
  handle (SensorChanged "sensor.room" None
            (Some (reading_in (Some TEMP_FAHRENHEIT) "50"))) latched =
    (set_current_temperature (Some (10 # 1)%Q : option float) latched, [],
     Returned ()) ∧
  handle (SensorChanged "sensor.room" None
            (Some (reading_in (Some TEMP_FAHRENHEIT) "32"))) latched =
    (set_current_temperature (Some (0 # 1)%Q : option float) latched, [],
     Returned ()) ∧
  handle (SensorChanged "sensor.room" None
            (Some (reading_in (Some "K") "295"))) warm =
    (warm, [LogError "Unable to update from sensor: %s"], Returned ()) ∧
  handle (SensorChanged "sensor.room" None
            (Some (reading_in None "21.5"))) warm =
    (warm, [LogError "Unable to update from sensor: %s"], Returned ()).
Proof.
  split_and!.
  - eapply (proj1 (sensor_value_converted latched "sensor.room" None
                     (reading_in (Some TEMP_FAHRENHEIT) "50") "50" _
                     eq_refl _ eq_refl)).
    reflexivity.
  - eapply (proj1 (sensor_value_converted latched "sensor.room" None
                     (reading_in (Some TEMP_FAHRENHEIT) "32") "32" _
                     eq_refl _ eq_refl)).
    reflexivity.
  - eapply (proj2 (sensor_value_converted warm "sensor.room" None
                     (reading_in (Some "K") "295") "295" _
                     eq_refl _ eq_refl)).
    reflexivity.
  - eapply (proj2 (sensor_value_converted warm "sensor.room" None
                     (reading_in None "21.5") "21.5" _
                     eq_refl _ eq_refl)).
    reflexivity.
  Unshelve. all: discriminate.
Defined.

(** X9, run: construction with the sensor at 21.5. *)
Lemma constructed_entity_witness :
  __init__ "sensor.room" (Some (reading (Some "21.5"))) =
    handle (SensorChanged "sensor.room" None (Some (reading (Some "21.5"))))
      init ∧
  __init__ "" (Some (reading (Some "21.5"))) = (init, [], Returned ()).
Proof.
  destruct (constructed_entity "sensor.room" (Some (reading (Some "21.5"))))
    as (_ & _ & _ & Heager).
  destruct (constructed_entity "" (Some (reading (Some "21.5"))))
    as (_ & _ & Hnone & _).
  split.
  - apply Heager; [discriminate|reflexivity].
  - apply Hnone. left; reflexivity.
Defined.

(** X10, run: a fan mode that could not be pushed is gone after the poll. *)
Lemma successful_poll_overrides_witness :
  exec (PollReading (evaluated (status_of "X")))
    (exec (SetFanMode "Turbo" OK) latched)
    = exec (PollReading (evaluated (status_of "X"))) latched.
Proof.
  apply (successful_poll_overrides (SetFanMode "Turbo" OK)
           (evaluated (status_of "X")) (status_of "X")); reflexivity.
Defined.

(** A poll that the read of the swing mode stops does not: the fan mode
    set locally is still there, the on/off flag is the one just read, and
    the exception of the read leaves the method. *)
Example stopped_poll_keeps_local_mode :
  let s := exec (SetFanMode "Turbo" OK) latched in
  handle (PollReading stopped_at_swing) (set_available false s) =
    (set_state (Some false) s,
     [Call Device_status; LogDebug "Got new state: %s"], Raised ValueError) ∧
  Climate.current_fan_mode (exec (PollReading stopped_at_swing) s) =
    Some "Turbo".
Proof. split; reflexivity. Qed.

(** X1, run: the status of the household read to its end on the fresh
    entity, and the status with the unknown swing mode on the latched
    one. *)
Lemma poll_mirrors_status_witness :
  handle (PollReading (evaluated (status_of "X"))) init =
    (polled (status_of "X") init,
     [Call Device_status; LogDebug "Got new state: %s"], Returned ()) ∧
  Climate.is_on (exec (PollReading stopped_at_swing) latched) = Some false ∧
  Climate.current_swing_mode (exec (PollReading stopped_at_swing) latched) =
    Climate.current_swing_mode latched ∧
  result_of (handle (PollReading stopped_at_swing) latched) =
    Raised ValueError.
Proof.
  destruct (poll_mirrors_status (evaluated (status_of "X")) init)
    as [Hend _].
  destruct (poll_mirrors_status stopped_at_swing latched) as [_ Hstop].
  destruct (Hend (status_of "X") eq_refl) as (Hhandle & _).
  destruct (Hstop ValueError eq_refl)
    as (_ & Hon & _ & _ & Hswing & _ & _ & _ & _ & Hresult).
  split_and!; [exact Hhandle|exact Hon|exact Hswing|exact Hresult].
Defined.

(** X4, run: the push of [set_fan_mode] carries the fan speed just set. *)
Lemma setters_assign_before_push_witness :
  FanSpeed_getitem "High" = Some Fan_High ∧
  handle (SetFanMode "High" OK) latched =
    _send_configuration OK (set_current_fan_mode (Some "High") latched).
Proof.
  destruct (setters_assign_before_push latched OK)
    as (_ & _ & _ & _ & Hfan & _ & _ & _ & Hcarries & _).
  split; [|apply Hfan].
  apply (Hcarries "High" "X" Power_On Mode_Cool (Some (Int 25)) Fan_High
           Swing_Off Led_Off_).
  apply list_elem_of_here.
Defined.


(** X13, run: High from the list of fan speeds. *)
Lemma listed_mode_is_pushed_witness :
  ∃ m power model,
    m ∈ FAN_SPEEDS ∧ FanSpeed_name m = "High" ∧
    Power_call (Z.b2z (is_on (status_of "X"))) = Some power ∧
    _air_condition_model (exec (PollReading (evaluated (status_of "X"))) init)
      = Some model ∧
    calls (trace_of (handle (SetFanMode "High" REFUSED)
                       (exec (PollReading (evaluated (status_of "X")))
                          init))) =
      [Device_send_configuration model power
         (mode (status_of "X"))
         (Some (Int (target_temperature (status_of "X")))) m
         (swing_mode (status_of "X")) Led_Off].
Proof.
  apply (proj1 (proj2 (listed_mode_is_pushed (evaluated (status_of "X"))
                         (status_of "X") init REFUSED eq_refl))
           FAN_SPEEDS "High").
  do 2 apply list_elem_of_further. apply list_elem_of_here.
Defined.


(** X15, run: a failed push, a time-out and a refused [turn_off] later, the
    polled flag and the latched model are still there. *)
Lemma known_stays_known_witness :
  is_Some (Climate.is_on
             (run [SetFanMode "Turbo" OK; Poll (Raised TIMEOUT);
                   TurnOff REFUSED] latched)) ∧
  _air_condition_model
    (run [SetFanMode "Turbo" OK; Poll (Raised TIMEOUT); TurnOff REFUSED]
       latched) = _air_condition_model latched.
Proof.
  destruct (known_stays_known
              [SetFanMode "Turbo" OK; Poll (Raised TIMEOUT); TurnOff REFUSED]
              latched) as (Hon & _ & _ & _ & _ & _ & Hmodel).
  split; [apply Hon|apply Hmodel]; by eexists.
Defined.

(** The unique id and the logged prefix of the token in this installation. *)
Example setup_of_the_installation :
  (async_setup_platform config (Returned device_info) None).1 =
    [SetupInfo "Initializing with host %s (token %s...)"
       ["192.168.1.20"; "01234"];
     Connect "192.168.1.20" "0123456789abcdef0123456789abcdef";
     SetupInfo "%s %s %s detected" ["lumi.acpartner.v2"; "1.4.1"; "Linux"];
     AddDevices
       [{| _name := "Xiaomi AC Companion";
           _unique_id := "lumi.acpartner.v2-28:6C:07:00:00:01";
           _sensor_entity_id := "sensor.room";
           _min_temp := 16; _max_temp := 30;
           entity := init |}]
       true].
Proof. reflexivity. Qed.

End Installed.
